(** * APEX traffic-signal decision engine: a shallow embedding

    The development follows [server/models.py] (data contracts) and
    [server/decision_engine.py] (class [DecisionEngine]).

    Conventions of the embedding.
    - A Python [float] is read as an exact real number ([R]); rounding,
      overflow, underflow and NaN of binary64 are outside the model.
      A Python [int] is a [Z] and enters arithmetic through [IZR].
    - A Python [dict] keyed by [LaneDirection] is an association list in
      insertion order; a well-formed dict has pairwise distinct keys
      ([is_dict]).  [d[k]] is [dict_get] (it raises [KeyError]) and
      [d[k] = v] is [dict_set].
    - Raising code returns a [result]; [x <- c ;; k] sequences it.
    - [time.time()] and [np.random.choice] are the two inputs the engine
      takes from its environment; they are explicit arguments of [decide]. *)

From Stdlib Require Import Reals Lra Lia ZArith List Bool String.
Import ListNotations.

Open Scope R_scope.

(** ** Python runtime: exceptions and dicts *)

Inductive exn : Type :=
| KeyError
| ValueError
| IndexError
| ValidationError.

Inductive result (A : Type) : Type :=
| Ok (a : A)
| Raise (e : exn).

Arguments Ok {A} a.
Arguments Raise {A} e.

Definition bind {A B : Type} (c : result A) (k : A -> result B) : result B :=
  match c with
  | Ok a => k a
  | Raise e => Raise e
  end.

Notation "x <- c ;; k" := (bind c (fun x => k))
  (at level 61, c at next level, right associativity).

(** A list comprehension whose body may raise. *)
Fixpoint mapM {A B : Type} (f : A -> result B) (l : list A) : result (list B) :=
  match l with
  | [] => Ok []
  | a :: r => b <- f a ;; bs <- mapM f r ;; Ok (b :: bs)
  end.

(** A [for] loop over [l] that threads an accumulator and may raise. *)
Fixpoint foldM {A S : Type} (step : S -> A -> result S) (l : list A) (s : S)
  : result S :=
  match l with
  | [] => Ok s
  | a :: r => s' <- step s a ;; foldM step r s'
  end.

(** [l[i]] on a Python list. *)
Definition list_index {A : Type} (l : list A) (i : nat) : result A :=
  match nth_error l i with
  | Some a => Ok a
  | None => Raise IndexError
  end.

(** ** models.py *)

Inductive LaneDirection : Type := North | South | East | West.

Definition LaneDirection_eq_dec (a b : LaneDirection) : {a = b} + {a <> b}.
Proof. decide equality. Defined.

Section Dict.
Context {V : Type}.

Definition dict : Type := list (LaneDirection * V).

Definition keys (d : dict) : list LaneDirection := map fst d.
Definition values (d : dict) : list V := map snd d.

(** Python dicts never hold a key twice. *)
Definition is_dict (d : dict) : Prop := NoDup (keys d).

Fixpoint dict_get (k : LaneDirection) (d : dict) : result V :=
  match d with
  | [] => Raise KeyError
  | (k', v) :: r => if LaneDirection_eq_dec k k' then Ok v else dict_get k r
  end.

(** [d[k] = v]: an existing key keeps its position, a new key goes last. *)
Fixpoint dict_set (k : LaneDirection) (v : V) (d : dict) : dict :=
  match d with
  | [] => [(k, v)]
  | (k', v') :: r =>
      if LaneDirection_eq_dec k k' then (k, v) :: r
      else (k', v') :: dict_set k v r
  end.

(** [{k: v for k, v in l}]. *)
Definition dict_of_items (l : list (LaneDirection * V)) : dict :=
  fold_left (fun acc kv => dict_set (fst kv) (snd kv) acc) l [].
End Dict.

Arguments dict V : clear implicits.

Record VehicleCount : Type := {
  car : Z;
  bike : Z;
  truck : Z;
  bus : Z;
  emergency : Z;
  pedestrians : Z
}.

Record VisionOutput : Type := {
  vehicleCountByType : VehicleCount;
  avgSpeed : R;
  laneOccupancy : R;
  ambulanceDetected : bool;
  rainDetected : bool;
  confidenceScore : R
}.

Module DownstreamData.
Record t : Type := {
  avgSpeed : R;
  congestionIndex : R;
  ttl : Z
}.
End DownstreamData.

Record LaneState : Type := {
  direction : LaneDirection;
  vision : VisionOutput;
  downstream : option DownstreamData.t;
  waitTime : R;
  lastGreenTime : R
}.

Module DecisionReason.
Record t : Type := {
  emergency : bool;
  maxWaitViolation : bool;
  downstreamPenalty : R;
  recentGreenDecay : R;
  softmaxProbability : R;
  localTrafficScore : R
}.
End DecisionReason.

Record SignalDecision : Type := {
  selectedLane : LaneDirection;
  greenDuration : R;
  decisionConfidence : R;
  reasonTrace : DecisionReason.t;
  timestamp : R
}.

(** The [Field(ge=..., le=...)] constraints pydantic enforces when a model
    is built. *)
Definition valid_VisionOutput (v : VisionOutput) : Prop :=
  0 <= avgSpeed v <= 100 /\
  0 <= laneOccupancy v <= 1 /\
  0 <= confidenceScore v <= 1.

Definition valid_DownstreamData (d : DownstreamData.t) : Prop :=
  0 <= DownstreamData.avgSpeed d <= 100 /\
  0 <= DownstreamData.congestionIndex d <= 1.

Definition valid_LaneState (l : LaneState) : Prop :=
  valid_VisionOutput (vision l) /\
  match downstream l with
  | Some d => valid_DownstreamData d
  | None => True
  end.

(** [SignalDecision(...)]: the constructor validates
    [greenDuration: Field(ge=5, le=120)] and
    [decisionConfidence: Field(ge=0, le=1)]. *)
Definition new_SignalDecision (lane : LaneDirection) (duration confidence : R)
    (reason : DecisionReason.t) (stamp : R) : result SignalDecision :=
  if Rle_dec 5 duration then
    if Rle_dec duration 120 then
      if Rle_dec 0 confidence then
        if Rle_dec confidence 1 then
          Ok {| selectedLane := lane;
                greenDuration := duration;
                decisionConfidence := confidence;
                reasonTrace := reason;
                timestamp := stamp |}
        else Raise ValidationError
      else Raise ValidationError
    else Raise ValidationError
  else Raise ValidationError.

(** ** decision_engine.py: class DecisionEngine *)

(** *** [__init__]: the engine's constants *)

Definition MAX_WAIT_TIME : R := 120.0.
Definition MIN_GREEN : R := 5.0.
Definition MAX_GREEN : R := 60.0.
Definition RECENT_GREEN_DECAY_WINDOW : R := 30.0.
Definition TEMPERATURE : R := 0.7.

(** The keys of [self.VEHICLE_WEIGHTS]; every lookup in the source uses a
    literal key of the table, so the lookup is total. *)
Inductive weight_key : Type :=
| w_car | w_bike | w_truck | w_bus | w_emergency | w_pedestrians.

Definition VEHICLE_WEIGHTS (k : weight_key) : R :=
  match k with
  | w_car => 1.0
  | w_bike => 0.3
  | w_truck => 1.5
  | w_bus => 1.5
  | w_emergency => 10.0
  | w_pedestrians => 0.5
  end.

Definition RAIN_BIKE_MULTIPLIER : R := 2.0.

(** *** Safety override checks *)

(** [for direction, lane in lanes.items(): if lane.vision.ambulanceDetected:
    return direction]. *)
Fixpoint _check_emergency (lanes : dict LaneState) : option LaneDirection :=
  match lanes with
  | [] => None
  | (direction, lane) :: rest =>
      if ambulanceDetected (vision lane) then Some direction
      else _check_emergency rest
  end.

Fixpoint _check_max_wait (lanes : dict LaneState) : option LaneDirection :=
  match lanes with
  | [] => None
  | (direction, lane) :: rest =>
      if Rgt_dec (waitTime lane) MAX_WAIT_TIME then Some direction
      else _check_max_wait rest
  end.

(** *** Scoring *)

Definition _calculate_local_traffic_score (lane : LaneState) : R :=
  let vehicles := vehicleCountByType (vision lane) in
  let score :=
    IZR (car vehicles) * VEHICLE_WEIGHTS w_car +
    IZR (bike vehicles) * VEHICLE_WEIGHTS w_bike +
    IZR (truck vehicles) * VEHICLE_WEIGHTS w_truck +
    IZR (bus vehicles) * VEHICLE_WEIGHTS w_bus +
    IZR (emergency vehicles) * VEHICLE_WEIGHTS w_emergency +
    IZR (pedestrians vehicles) * VEHICLE_WEIGHTS w_pedestrians in
  let score :=
    if rainDetected (vision lane)
    then score + IZR (bike vehicles) * VEHICLE_WEIGHTS w_bike
                 * (RAIN_BIKE_MULTIPLIER - 1)
    else score in
  let speed_factor := Rmax 0 (1 - avgSpeed (vision lane) / 60.0) in
  let score := score * (1 + speed_factor) in
  let score := score * (1 + laneOccupancy (vision lane)) in
  score.

(** [if not lane.downstream]: a pydantic model instance is always truthy, so
    the test is exactly the [None] test. *)
Definition _calculate_downstream_priority (lane : LaneState) : R :=
  match downstream lane with
  | None => 1.0
  | Some d =>
      let downstream_speed := DownstreamData.avgSpeed d in
      let priority_order := Rmax 0.1 (downstream_speed / 60.0) in
      priority_order
  end.

Definition _calculate_net_priorities (lanes : dict LaneState) : dict R :=
  fold_left
    (fun priorities item =>
       let '(direction, lane) := item in
       let local_score := _calculate_local_traffic_score lane in
       let downstream_priority := _calculate_downstream_priority lane in
       let net_priority := local_score * (downstream_priority ^ 2) in
       dict_set direction net_priority priorities)
    lanes [].

(** [current_time] is the reading of [time.time()]. *)
Definition _apply_recent_green_decay (current_time : R)
    (lanes : dict LaneState) (priorities : dict R) : result (dict R) :=
  foldM
    (fun adjusted_priorities item =>
       let '(direction, priority) := item in
       lane <- dict_get direction lanes ;;
       let time_since_green := current_time - lastGreenTime lane in
       let decay :=
         if Rlt_dec time_since_green RECENT_GREEN_DECAY_WINDOW
         then time_since_green / RECENT_GREEN_DECAY_WINDOW
         else 1.0 in
       Ok (dict_set direction (priority * decay) adjusted_priorities))
    priorities [].

(** *** Softmax and selection *)

Definition np_sum (l : list R) : R := fold_right Rplus 0 l.

(** [np.max] raises [ValueError] on a zero-size array. *)
Definition np_max (l : list R) : result R :=
  match l with
  | [] => Raise ValueError
  | x :: r => Ok (fold_left Rmax r x)
  end.

Definition _softmax (priorities : dict R) (temperature : R)
  : result (dict R) :=
  let directions := keys priorities in
  vals <- mapM (fun d => dict_get d priorities) directions ;;
  let vals := map (fun v => v + 1e-6) vals in
  let scaled := map (fun v => v / temperature) vals in
  m <- np_max scaled ;;
  let exp_values := map (fun s => exp (s - m)) scaled in
  let total := np_sum exp_values in
  let probabilities := map (fun e => e / total) exp_values in
  Ok (dict_of_items (combine directions probabilities)).

(** The tolerance of [np.random.choice] on the sum of [p]:
    [sqrt(np.finfo(np.float64).eps)]. *)
Definition choice_atol : R := 1.4901161193847656e-08.

(** [np.random.choice(n, p=p)].  The sampled index is the argument [draw];
    numpy returns an index of [range(n)], so callers instantiate [draw < n].
    The argument checks numpy performs before sampling are kept: [n] must be
    positive, [p] must have [n] entries, none negative, summing to 1 within
    [choice_atol]. *)
Definition np_random_choice (draw : nat) (n : nat) (p : list R)
  : result nat :=
  if Nat.eqb n 0 then Raise ValueError
  else if negb (Nat.eqb (List.length p) n) then Raise ValueError
  else if existsb (fun x => if Rlt_dec x 0 then true else false) p
       then Raise ValueError
  else if Rgt_dec (Rabs (np_sum p - 1)) choice_atol then Raise ValueError
  else Ok draw.

Definition _select_lane (draw : nat) (probabilities : dict R)
  : result LaneDirection :=
  let directions := keys probabilities in
  probs <- mapM (fun d => dict_get d probabilities) directions ;;
  selected_idx <- np_random_choice draw (List.length directions) probs ;;
  list_index directions selected_idx.

(** *** Green time *)

Definition _calculate_green_duration (lane : LaneState) : R :=
  let local_score := _calculate_local_traffic_score lane in
  let normalized := Rmin (local_score / 50.0) 1.0 in
  let duration := MIN_GREEN + (MAX_GREEN - MIN_GREEN) * normalized in
  let duration := duration * confidenceScore (vision lane) in
  Rmax MIN_GREEN (Rmin MAX_GREEN duration).

(** *** Decision assembly; [stamp] is the reading of [time.time()] *)

Definition _create_decision (stamp : R) (lane : LaneDirection) (duration : R)
    (lanes : dict LaneState) (priorities probabilities : dict R)
  : result SignalDecision :=
  l <- dict_get lane lanes ;;
  p <- dict_get lane probabilities ;;
  let reason :=
    {| DecisionReason.emergency := false;
       DecisionReason.maxWaitViolation := false;
       DecisionReason.downstreamPenalty :=
         1.0 - _calculate_downstream_priority l;
       DecisionReason.recentGreenDecay := 1.0;
       DecisionReason.softmaxProbability := p;
       DecisionReason.localTrafficScore :=
         _calculate_local_traffic_score l |} in
  new_SignalDecision lane duration p reason stamp.

Definition _create_emergency_decision (stamp : R) (lane : LaneDirection)
    (lanes : dict LaneState) : result SignalDecision :=
  let reason :=
    {| DecisionReason.emergency := true;
       DecisionReason.maxWaitViolation := false;
       DecisionReason.downstreamPenalty := 0.0;
       DecisionReason.recentGreenDecay := 1.0;
       DecisionReason.softmaxProbability := 1.0;
       DecisionReason.localTrafficScore := 999.0 |} in
  new_SignalDecision lane MAX_GREEN 1.0 reason stamp.

Definition _create_forced_decision (stamp : R) (lane : LaneDirection)
    (lanes : dict LaneState) (reason_type : string)
  : result SignalDecision :=
  l <- dict_get lane lanes ;;
  let reason :=
    {| DecisionReason.emergency := false;
       DecisionReason.maxWaitViolation :=
         String.eqb reason_type "max_wait_violation";
       DecisionReason.downstreamPenalty := 0.0;
       DecisionReason.recentGreenDecay := 1.0;
       DecisionReason.softmaxProbability := 1.0;
       DecisionReason.localTrafficScore :=
         _calculate_local_traffic_score l |} in
  new_SignalDecision lane MIN_GREEN 1.0 reason stamp.

(** *** The pipeline

    [now] is the clock read by the decay step, [stamp] the clock read when
    the decision is built, [draw] the index sampled by [np.random.choice].
    [if emergency_lane:] tests a [LaneDirection], a non-empty string, so it
    is the test against [None]. *)
Definition decide (now stamp : R) (draw : nat) (lanes : dict LaneState)
  : result SignalDecision :=
  match _check_emergency lanes with
  | Some emergency_lane => _create_emergency_decision stamp emergency_lane lanes
  | None =>
      match _check_max_wait lanes with
      | Some max_wait_lane =>
          _create_forced_decision stamp max_wait_lane lanes "max_wait_violation"
      | None =>
          let priorities := _calculate_net_priorities lanes in
          priorities <- _apply_recent_green_decay now lanes priorities ;;
          probabilities <- _softmax priorities TEMPERATURE ;;
          selected_lane <- _select_lane draw probabilities ;;
          lane <- dict_get selected_lane lanes ;;
          let green_duration := _calculate_green_duration lane in
          _create_decision stamp selected_lane green_duration lanes
            priorities probabilities
      end
  end.

(** ** maps_adapter.py: class MapsAdapter

    The adapter keeps a cache and a registry of accidents, and it reads the
    clock, the calendar and the random generator.  The state is passed
    explicitly; everything a call reads from its environment is gathered in
    a record [Env]. *)

(** [round(x, ndigits)] on a float read as a real: the nearest multiple of
    [10 ** -ndigits], a tie going to the even one. *)
Definition round_half_even (y : R) : Z :=
  let n := Int_part y in
  let f := frac_part y in
  if Rlt_dec f (1 / 2) then n
  else if Rgt_dec f (1 / 2) then (n + 1)%Z
  else if Z.even n then n else (n + 1)%Z.

Definition py_round (x : R) (ndigits : nat) : R :=
  IZR (round_half_even (x * 10 ^ ndigits)) / 10 ^ ndigits.

(** [random.uniform(a, b)] computes [a + (b - a) * random.random()]; [u] is
    the value drawn by [random.random()]. *)
Definition uniform (a b u : R) : R := a + (b - a) * u.

(** [str.lower()] and [needle in haystack], on ASCII text. *)
Definition ascii_lower (c : Ascii.ascii) : Ascii.ascii :=
  let n := Ascii.nat_of_ascii c in
  if (65 <=? n)%nat && (n <=? 90)%nat then Ascii.ascii_of_nat (n + 32)
  else c.

Fixpoint lower (s : string) : string :=
  match s with
  | EmptyString => EmptyString
  | String c r => String (ascii_lower c) (lower r)
  end.

Definition contains (needle haystack : string) : bool :=
  match String.index 0 needle haystack with
  | Some _ => true
  | None => false
  end.

(** [LaneDirection.value]. *)
Definition lane_value (lane : LaneDirection) : string :=
  match lane with
  | North => "North"
  | South => "South"
  | East => "East"
  | West => "West"
  end.

(** [DownstreamData(...)]: the constructor validates
    [avgSpeed: Field(ge=0, le=100)] and [congestionIndex: Field(ge=0, le=1)]. *)
Definition new_DownstreamData (speed congestion : R) (ttl : Z)
  : result DownstreamData.t :=
  if Rle_dec 0 speed then
    if Rle_dec speed 100 then
      if Rle_dec 0 congestion then
        if Rle_dec congestion 1 then
          Ok {| DownstreamData.avgSpeed := speed;
                DownstreamData.congestionIndex := congestion;
                DownstreamData.ttl := ttl |}
        else Raise ValidationError
      else Raise ValidationError
    else Raise ValidationError
  else Raise ValidationError.

Module MapsAdapter.

(** A dict with string keys, in insertion order. *)
Definition sdict (V : Type) : Type := list (string * V).

Fixpoint sget {V : Type} (k : string) (d : sdict V) : option V :=
  match d with
  | [] => None
  | (k', v) :: r => if String.eqb k k' then Some v else sget k r
  end.

Fixpoint sset {V : Type} (k : string) (v : V) (d : sdict V) : sdict V :=
  match d with
  | [] => [(k, v)]
  | (k', v') :: r =>
      if String.eqb k k' then (k, v) :: r else (k', v') :: sset k v r
  end.

Fixpoint sdel {V : Type} (k : string) (d : sdict V) : sdict V :=
  match d with
  | [] => []
  | (k', v') :: r => if String.eqb k k' then r else (k', v') :: sdel k r
  end.

(** The mutable attributes of a [MapsAdapter]. *)
Record t : Type := {
  simulation_mode : bool;
  cache : sdict (DownstreamData.t * R);
  active_accidents : sdict R
}.

Definition cache_ttl : Z := 60.
Definition accident_probability : R := 0.02.

(** [MapsAdapter(simulation_mode)]. *)
Definition init (mode : bool) : t :=
  {| simulation_mode := mode; cache := []; active_accidents := [] |}.

Definition downstream_roads (lane : LaneDirection) : string :=
  match lane with
  | North => "road_north_downtown"
  | South => "road_south_highway"
  | East => "road_east_residential"
  | West => "road_west_industrial"
  end.

(** What one call of [get_downstream_traffic] reads from outside: the clock
    at the cache test, inside [_check_accidents] and when the cache is
    written; [datetime.now()]; and the draws of the random generator, one
    field per call site. *)
Record Env : Type := {
  check_clock : R;
  accident_clock : R;
  store_clock : R;
  hour : Z;
  day_of_week : Z;
  u_time : R;
  u_weather : R;
  u_variation : R;
  u_roll : R;
  accident_duration : Z;
  u_accident : R
}.

Definition _get_time_of_day_factor (hour day_of_week : Z) (u : R) : R :=
  let is_weekend := (5 <=? day_of_week)%Z in
  if is_weekend then
    if ((10 <=? hour) && (hour <=? 20))%Z then uniform 0.8 0.95 u
    else uniform 0.95 1.1 u
  else if ((7 <=? hour) && (hour <=? 9))%Z then uniform 0.4 0.6 u
  else if ((17 <=? hour) && (hour <=? 19))%Z then uniform 0.3 0.5 u
  else if ((10 <=? hour) && (hour <=? 16))%Z then uniform 0.7 0.9 u
  else if ((22 <=? hour) || (hour <=? 5))%Z then uniform 1.0 1.2 u
  else uniform 0.8 1.0 u.

Definition _get_weather_factor (weather_condition : option string) (u : R)
  : R :=
  match weather_condition with
  | None => 1.0
  | Some EmptyString => 1.0
  | Some w =>
      let weather_lower := lower w in
      if contains "storm" weather_lower || contains "heavy rain" weather_lower
      then uniform 0.5 0.7 u
      else if contains "rain" weather_lower || contains "drizzle" weather_lower
      then uniform 0.8 0.9 u
      else if contains "fog" weather_lower then uniform 0.7 0.85 u
      else if contains "snow" weather_lower then uniform 0.4 0.6 u
      else 1.0
  end.

Definition _check_accidents (self : t) (lane : LaneDirection) (env : Env)
  : R * t :=
  let current_time := accident_clock env in
  let road_id := downstream_roads lane in
  match sget road_id (active_accidents self) with
  | Some accident_end_time =>
      if Rlt_dec current_time accident_end_time then
        (uniform 0.2 0.4 (u_accident env), self)
      else
        (1.0,
         {| simulation_mode := simulation_mode self;
            cache := cache self;
            active_accidents := sdel road_id (active_accidents self) |})
  | None =>
      if Rlt_dec (u_roll env) (accident_probability / 60) then
        let duration := accident_duration env in
        (uniform 0.2 0.4 (u_accident env),
         {| simulation_mode := simulation_mode self;
            cache := cache self;
            active_accidents :=
              sset road_id (current_time + IZR duration)
                (active_accidents self) |})
      else (1.0, self)
  end.

Definition road_type_speeds (lane : LaneDirection) : R :=
  match lane with
  | North => 45
  | South => 70
  | East => 35
  | West => 50
  end.

Definition _simulate_downstream_traffic (self : t) (lane : LaneDirection)
    (weather_condition : option string) (env : Env)
  : result DownstreamData.t * t :=
  let base_speed := road_type_speeds lane in
  let time_factor :=
    _get_time_of_day_factor (hour env) (day_of_week env) (u_time env) in
  let weather_factor := _get_weather_factor weather_condition (u_weather env) in
  let random_factor := uniform 0.85 1.15 (u_variation env) in
  let (accident_factor, self') := _check_accidents self lane env in
  let final_speed :=
    base_speed * time_factor * weather_factor * random_factor
    * accident_factor in
  let final_speed := Rmax 5 (Rmin 100 final_speed) in
  let max_speed := base_speed * 1.2 in
  let congestion_index := 1 - (final_speed / max_speed) in
  let congestion_index := Rmax 0 (Rmin 1 congestion_index) in
  (new_DownstreamData (py_round final_speed 1) (py_round congestion_index 2)
     cache_ttl,
   self').

(** The body is the placeholder of the source: it calls the simulation
    without a weather condition. *)
Definition _fetch_real_traffic_data (self : t) (lane : LaneDirection)
    (env : Env) : result DownstreamData.t * t :=
  _simulate_downstream_traffic self lane None env.

(** [f"{lane.value}_{weather_condition}"]; [None] is formatted as "None". *)
Definition cache_key (lane : LaneDirection) (weather_condition : option string)
  : string :=
  (lane_value lane ++ "_"
   ++ match weather_condition with Some w => w | None => "None" end)%string.

Definition get_downstream_traffic (self : t) (lane : LaneDirection)
    (weather_condition : option string) (env : Env)
  : result DownstreamData.t * t :=
  let key := cache_key lane weather_condition in
  let fresh :=
    match sget key (cache self) with
    | Some (cached_data, cached_time) =>
        if Rlt_dec (check_clock env - cached_time) (IZR cache_ttl)
        then Some cached_data else None
    | None => None
    end in
  match fresh with
  | Some cached_data => (Ok cached_data, self)
  | None =>
      let (r, self') :=
        if simulation_mode self
        then _simulate_downstream_traffic self lane weather_condition env
        else _fetch_real_traffic_data self lane env in
      match r with
      | Ok data =>
          (Ok data,
           {| simulation_mode := simulation_mode self';
              cache := sset key (data, store_clock env) (cache self');
              active_accidents := active_accidents self' |})
      | Raise e => (Raise e, self')
      end
  end.

(** [set_weather] only clears the cache. *)
Definition set_weather (self : t) (weather_condition : string) : t :=
  {| simulation_mode := simulation_mode self;
     cache := [];
     active_accidents := active_accidents self |}.

(** [clock] is the reading of [time.time()]. *)
Definition trigger_accident (self : t) (clock : R) (lane : LaneDirection)
    (duration_minutes : Z) : t :=
  let road_id := downstream_roads lane in
  {| simulation_mode := simulation_mode self;
     cache := [];
     active_accidents :=
       sset road_id (clock + IZR (duration_minutes * 60))
         (active_accidents self) |}.

Definition clear_accidents (self : t) : t :=
  {| simulation_mode := simulation_mode self;
     cache := [];
     active_accidents := [] |}.

(** One value of the dict built by [get_traffic_summary]. *)
Record SummaryEntry : Type := {
  speed : R;
  congestion : R;
  level : string;
  has_accident : bool
}.

(** The loop of [get_traffic_summary] over the lanes still to visit;
    [envs lane] is the environment of the call made for [lane]. *)
Fixpoint summary_loop (self : t) (envs : LaneDirection -> Env)
    (todo : list LaneDirection) (summary : sdict SummaryEntry)
  : result (sdict SummaryEntry) * t :=
  match todo with
  | [] => (Ok summary, self)
  | lane :: rest =>
      let (r, self') := get_downstream_traffic self lane None (envs lane) in
      match r with
      | Raise e => (Raise e, self')
      | Ok data =>
          let level :=
            if Rlt_dec (DownstreamData.congestionIndex data) 0.3
            then "Light"%string
            else if Rlt_dec (DownstreamData.congestionIndex data) 0.6
            then "Moderate"%string
            else if Rlt_dec (DownstreamData.congestionIndex data) 0.8
            then "Heavy"%string
            else "Gridlock"%string in
          let entry :=
            {| speed := DownstreamData.avgSpeed data;
               congestion := DownstreamData.congestionIndex data;
               level := level;
               has_accident :=
                 match sget (downstream_roads lane) (active_accidents self')
                 with Some _ => true | None => false end |} in
          summary_loop self' envs rest (sset (lane_value lane) entry summary)
      end
  end.

(** [for lane in LaneDirection] visits the members in definition order. *)
Definition get_traffic_summary (self : t) (envs : LaneDirection -> Env)
  : result (sdict SummaryEntry) * t :=
  summary_loop self envs [North; South; East; West] [].

End MapsAdapter.

(** ** main.py: the decision endpoint *)

Record IntersectionState : Type := {
  lanes : dict LaneState;
  currentSignal : option LaneDirection;
  emergencyMode : bool
}.

Record DecisionRequest : Type := {
  intersectionState : IntersectionState;
  controlMode : string
}.

(** [controlMode: str = Field(default="ai", pattern="^(ai|manual)$")]. *)
Definition valid_DecisionRequest (r : DecisionRequest) : Prop :=
  controlMode r = "ai"%string \/ controlMode r = "manual"%string.

Record DecisionResponse : Type := {
  decision : SignalDecision;
  fallbackMode : bool;
  errorMessage : option string
}.

(** How a call of the endpoint function ends: it returns a response, raises
    an [HTTPException], or lets another exception escape. *)
Inductive outcome : Type :=
| Returned (response : DecisionResponse)
| RaisedHTTP (status_code : Z) (detail : string)
| RaisedOther (e : exn).

(** [_create_fallback_decision]; [stamp] is the reading of [time.time()]. *)
Fixpoint _create_fallback_decision (stamp : R) (lanes : dict LaneState)
  : result SignalDecision :=
  match lanes with
  | [] =>
      new_SignalDecision North 10.0 0.5
        {| DecisionReason.emergency := false;
           DecisionReason.maxWaitViolation := false;
           DecisionReason.downstreamPenalty := 0.0;
           DecisionReason.recentGreenDecay := 1.0;
           DecisionReason.softmaxProbability := 0.25;
           DecisionReason.localTrafficScore := 0.0 |}
        stamp
  | (direction, lane) :: rest =>
      let total_vehicles :=
        (car (vehicleCountByType (vision lane))
         + truck (vehicleCountByType (vision lane))
         + bus (vehicleCountByType (vision lane)))%Z in
      if (total_vehicles >? 0)%Z then
        new_SignalDecision direction 15.0 0.5
          {| DecisionReason.emergency := false;
             DecisionReason.maxWaitViolation := false;
             DecisionReason.downstreamPenalty := 0.0;
             DecisionReason.recentGreenDecay := 1.0;
             DecisionReason.softmaxProbability := 0.5;
             DecisionReason.localTrafficScore := IZR total_vehicles |}
          stamp
      else _create_fallback_decision stamp rest
  end.

Definition with_downstream (x : option DownstreamData.t) (lane : LaneState)
  : LaneState :=
  {| direction := direction lane;
     vision := vision lane;
     downstream := x;
     waitTime := waitTime lane;
     lastGreenTime := lastGreenTime lane |}.

(** The enrichment loop of [make_decision]:
    [lane.downstream = maps_adapter.get_downstream_traffic(direction, ...)]
    for each item, in place.  [adapter d] is what that call returns, or
    raises, for lane [d] during the request.  The result is the snapshot as
    the loop left it, with the exception that stopped it, if any. *)
Fixpoint enrich_lanes (adapter : LaneDirection -> result DownstreamData.t)
    (lanes : dict LaneState) : dict LaneState * result unit :=
  match lanes with
  | [] => ([], Ok tt)
  | (direction, lane) :: rest =>
      match adapter direction with
      | Ok downstream_data =>
          let (rest', r) := enrich_lanes adapter rest in
          ((direction, with_downstream (Some downstream_data) lane) :: rest',
           r)
      | Raise e => ((direction, lane) :: rest, Raise e)
      end
  end.

(** [make_decision].  Logging is left out.  [str_of_exn e] is [str(e)];
    [now], [stamp] and [draw] are the engine's environment inputs and
    [fallback_stamp] is the clock read by the fallback. *)
Definition make_decision
    (adapter : LaneDirection -> result DownstreamData.t)
    (str_of_exn : exn -> string)
    (now stamp : R) (draw : nat) (fallback_stamp : R)
    (request : DecisionRequest) : outcome :=
  if negb (String.eqb (controlMode request) "ai") then
    RaisedHTTP 400 "Backend only processes AI mode requests"
  else
    let intersection := intersectionState request in
    match lanes intersection with
    | [] => RaisedHTTP 400 "No lane data provided"
    | _ :: _ =>
        let (enriched, loop) := enrich_lanes adapter (lanes intersection) in
        match (_ <- loop ;; decide now stamp draw enriched) with
        | Ok dec =>
            Returned {| decision := dec;
                        fallbackMode := false;
                        errorMessage := None |}
        | Raise e =>
            match _create_fallback_decision fallback_stamp enriched with
            | Ok fallback_decision =>
                Returned
                  {| decision := fallback_decision;
                     fallbackMode := true;
                     errorMessage :=
                       Some ("Error: " ++ str_of_exn e
                             ++ ". Using fallback logic.")%string |}
            | Raise e' => RaisedOther e'
            end
        end
    end.

(** Two snapshots that differ at most in the lanes' [downstream] fields. *)
Definition same_up_to_downstream (l1 l2 : dict LaneState) : Prop :=
  Forall2 (fun a b =>
             fst a = fst b /\
             with_downstream None (snd a) = with_downstream None (snd b))
          l1 l2.

(** ** Readings of the specification *)

(** The range conditions the specification's data model adds to the
    [Field] constraints: every vehicle count is non-negative. *)
Definition counts_nonneg (vc : VehicleCount) : Prop :=
  (0 <= car vc)%Z /\ (0 <= bike vc)%Z /\ (0 <= truck vc)%Z /\
  (0 <= bus vc)%Z /\ (0 <= emergency vc)%Z /\ (0 <= pedestrians vc)%Z.

Definition counts_zero (vc : VehicleCount) : Prop :=
  car vc = 0%Z /\ bike vc = 0%Z /\ truck vc = 0%Z /\
  bus vc = 0%Z /\ emergency vc = 0%Z /\ pedestrians vc = 0%Z.

(** [speedFactor = max(0, 1 - avgSpeed/60)]. *)
Definition speed_factor (lane : LaneState) : R :=
  Rmax 0 (1 - avgSpeed (vision lane) / 60).

(** The weighted sum of section 4.1, with the rain term. *)
Definition spec_weighted_sum (lane : LaneState) : R :=
  let vc := vehicleCountByType (vision lane) in
  IZR (car vc) * 1.0 + IZR (bike vc) * 0.3 + IZR (truck vc) * 1.5 +
  IZR (bus vc) * 1.5 + IZR (emergency vc) * 10.0 +
  IZR (pedestrians vc) * 0.5 +
  (if rainDetected (vision lane)
   then IZR (bike vc) * 0.3 * (2.0 - 1) else 0).

(** The local score as section 4.1 words it. *)
Definition spec_local_score (lane : LaneState) : R :=
  spec_weighted_sum lane * (1 + speed_factor lane)
  * (1 + laneOccupancy (vision lane)).

(** [clamp(x, lo, hi)]. *)
Definition clamp (x lo hi : R) : R := Rmax lo (Rmin hi x).

(** The green duration as section 4.6 words it. *)
Definition spec_green_duration (lane : LaneState) : R :=
  clamp (confidenceScore (vision lane)
         * (5 + (60 - 5) * Rmin (_calculate_local_traffic_score lane / 50) 1))
        5 60.

(** [decay = min(1, (now - lastGreenTime) / 30)]. *)
Definition spec_decay (now : R) (lane : LaneState) : R :=
  Rmin 1 ((now - lastGreenTime lane) / 30).

(** [adjustedPriority = localScore * downstreamFactor^2 * decay]. *)
Definition spec_adjusted_priority (now : R) (lane : LaneState) : R :=
  _calculate_local_traffic_score lane
  * (_calculate_downstream_priority lane) ^ 2
  * spec_decay now lane.

(** The same lane with another value of one sensor field. *)
Definition with_rain (b : bool) (lane : LaneState) : LaneState :=
  {| direction := direction lane;
     vision :=
       {| vehicleCountByType := vehicleCountByType (vision lane);
          avgSpeed := avgSpeed (vision lane);
          laneOccupancy := laneOccupancy (vision lane);
          ambulanceDetected := ambulanceDetected (vision lane);
          rainDetected := b;
          confidenceScore := confidenceScore (vision lane) |};
     downstream := downstream lane;
     waitTime := waitTime lane;
     lastGreenTime := lastGreenTime lane |}.



Definition with_speed (v : R) (lane : LaneState) : LaneState :=
  {| direction := direction lane;
     vision :=
       {| vehicleCountByType := vehicleCountByType (vision lane);
          avgSpeed := v;
          laneOccupancy := laneOccupancy (vision lane);
          ambulanceDetected := ambulanceDetected (vision lane);
          rainDetected := rainDetected (vision lane);
          confidenceScore := confidenceScore (vision lane) |};
     downstream := downstream lane;
     waitTime := waitTime lane;
     lastGreenTime := lastGreenTime lane |}.

Definition with_confidence (c : R) (lane : LaneState) : LaneState :=
  {| direction := direction lane;
     vision :=
       {| vehicleCountByType := vehicleCountByType (vision lane);
          avgSpeed := avgSpeed (vision lane);
          laneOccupancy := laneOccupancy (vision lane);
          ambulanceDetected := ambulanceDetected (vision lane);
          rainDetected := rainDetected (vision lane);
          confidenceScore := c |};
     downstream := downstream lane;
     waitTime := waitTime lane;
     lastGreenTime := lastGreenTime lane |}.

(** ** Closed forms of the per-lane loops

    On a well-formed dict every loop of the engine visits each key once, so
    its result is a [map] over the snapshot; the closed forms below are what
    the loops are proved to compute. *)

(** [net_priority = local_score * (downstream_priority ** 2)]. *)
Definition net_priority (lane : LaneState) : R :=
  _calculate_local_traffic_score lane
  * (_calculate_downstream_priority lane) ^ 2.

(** The decay factor of [_apply_recent_green_decay] for one lane. *)
Definition decay_factor (current_time : R) (lane : LaneState) : R :=
  let time_since_green := current_time - lastGreenTime lane in
  if Rlt_dec time_since_green RECENT_GREEN_DECAY_WINDOW
  then time_since_green / RECENT_GREEN_DECAY_WINDOW
  else 1.0.

Definition adjusted_priorities (current_time : R) (lanes : dict LaneState)
  : dict R :=
  map (fun item =>
         (fst item, net_priority (snd item)
                    * decay_factor current_time (snd item)))
      lanes.

(** The array computation of [_softmax] on a non-empty array. *)
Definition softmax_values (temperature : R) (vals : list R) : list R :=
  let scaled := map (fun v => v / temperature) (map (fun v => v + 1e-6) vals) in
  match scaled with
  | [] => []
  | x :: r =>
      let m := fold_left Rmax r x in
      let exp_values := map (fun s => exp (s - m)) scaled in
      map (fun e => e / np_sum exp_values) exp_values
  end.

(** ** Concrete snapshots used to exercise the statements *)

Definition no_vehicles : VehicleCount :=
  {| car := 0; bike := 0; truck := 0; bus := 0; emergency := 0;
     pedestrians := 0 |}.

Definition lane_of (d : LaneDirection) (vc : VehicleCount) (speed occ : R)
    (amb rain : bool) (down : option DownstreamData.t) (wait last : R)
  : LaneState :=
  {| direction := d;
     vision := {| vehicleCountByType := vc; avgSpeed := speed;
                  laneOccupancy := occ; ambulanceDetected := amb;
                  rainDetected := rain; confidenceScore := 0.95 |};
     downstream := down;
     waitTime := wait;
     lastGreenTime := last |}.

Definition quiet_lane (d : LaneDirection) : LaneState :=
  lane_of d no_vehicles 40 0.5 false false None 10 0.

(** South and West both report an ambulance; North waited 130 s. *)
Definition snapshot_two_ambulances : dict LaneState :=
  [ (North, lane_of North no_vehicles 40 0.5 false false None 130 0);
    (South, lane_of South no_vehicles 40 0.5 true false None 10 0);
    (East, quiet_lane East);
    (West, lane_of West no_vehicles 40 0.5 true false None 10 0) ].

(** No ambulance; East and West both waited longer than 120 s. *)
Definition snapshot_long_wait : dict LaneState :=
  [ (North, quiet_lane North);
    (South, lane_of South no_vehicles 40 0.5 false false None 120 0);
    (East, lane_of East no_vehicles 40 0.5 false false None 121 0);
    (West, lane_of West no_vehicles 40 0.5 false false None 500 0) ].

Definition ten_bikes : VehicleCount :=
  {| car := 0; bike := 10; truck := 0; bus := 0; emergency := 0;
     pedestrians := 0 |}.

(** Ten bikes, standing traffic, a full lane. *)
Definition lane_ten_bikes_jammed : LaneState :=
  lane_of North ten_bikes 0 1 false false None 10 0.

(** Ten bikes, free-flowing traffic, an empty-looking lane. *)
Definition lane_ten_bikes_free : LaneState :=
  lane_of North ten_bikes 60 0 false false None 10 0.

(** Downstream traffic at 90 km/h, inside the validated range. *)
Definition lane_fast_downstream : LaneState :=
  lane_of South no_vehicles 40 0.5 false false
    (Some {| DownstreamData.avgSpeed := 90;
             DownstreamData.congestionIndex := 0;
             DownstreamData.ttl := 60 |}) 10 0.

(** Downstream traffic at 30 km/h. *)
Definition lane_slow_downstream : LaneState :=
  lane_of South no_vehicles 40 0.5 false false
    (Some {| DownstreamData.avgSpeed := 30;
             DownstreamData.congestionIndex := 0.5;
             DownstreamData.ttl := 60 |}) 10 0.

(** North carries twenty cars in standing traffic and turned green at
    time 1000; South carries ten bikes and fast downstream traffic; East was
    served at time 985; West is quiet. *)
Definition twenty_cars : VehicleCount :=
  {| car := 20; bike := 0; truck := 0; bus := 0; emergency := 0;
     pedestrians := 0 |}.

Definition mixed_north : LaneState :=
  lane_of North twenty_cars 0 1 false false None 0 1000.

Definition mixed_south : LaneState :=
  lane_of South ten_bikes 60 0 false false
    (Some {| DownstreamData.avgSpeed := 90;
             DownstreamData.congestionIndex := 0;
             DownstreamData.ttl := 60 |}) 40 900.

Definition mixed_east : LaneState :=
  lane_of East twenty_cars 60 0 false false None 15 985.

Definition snapshot_mixed : dict LaneState :=
  [ (North, mixed_north); (South, mixed_south); (East, mixed_east);
    (West, quiet_lane West) ].






(** All four lanes at the same priority. *)
Definition priorities_level (v : R) : dict R :=
  [ (North, v); (South, v); (East, v); (West, v) ].

Definition fifty_cars : VehicleCount :=
  {| car := 50; bike := 0; truck := 0; bus := 0; emergency := 0;
     pedestrians := 0 |}.

(** Fifty cars at free flow: local score 50. *)
Definition lane_fifty_cars : LaneState :=
  lane_of West fifty_cars 60 0 false false None 10 0.

(** North of [snapshot_mixed] with its last green 20 s in the future. *)
Definition lane_future_green : LaneState :=
  lane_of North twenty_cars 0 1 false false None 0 1020.

Definition snapshot_future_green : dict LaneState :=
  [ (North, lane_future_green); (South, mixed_south) ].

(** The lanes the fallback looks for: some car, truck or bus present. *)
Definition has_motor_vehicles (item : LaneDirection * LaneState) : Prop :=
  (car (vehicleCountByType (vision (snd item)))
   + truck (vehicleCountByType (vision (snd item)))
   + bus (vehicleCountByType (vision (snd item))) > 0)%Z.

Definition request_of (mode : string) (snapshot : dict LaneState)
  : DecisionRequest :=
  {| intersectionState :=
       {| lanes := snapshot; currentSignal := None; emergencyMode := false |};
     controlMode := mode |}.

(** Only South is present: ten bikes, three emergency vehicles, an
    ambulance detected, and no car, truck or bus. *)
Definition bikes_and_emergency : VehicleCount :=
  {| car := 0; bike := 10; truck := 0; bus := 0; emergency := 3;
     pedestrians := 4 |}.

Definition snapshot_south_only : dict LaneState :=
  [ (South, lane_of South bikes_and_emergency 10 1 true false None 200 0) ].

(** An adapter that answers 90 km/h for every lane, and one that fails on
    East. *)
Definition adapter_fast (d : LaneDirection) : result DownstreamData.t :=
  Ok {| DownstreamData.avgSpeed := 90;
        DownstreamData.congestionIndex := 0;
        DownstreamData.ttl := 60 |}.

Definition adapter_fails_east (d : LaneDirection)
  : result DownstreamData.t :=
  match d with
  | East => Raise ValidationError
  | _ => adapter_fast d
  end.

Definition exn_text (e : exn) : string :=
  match e with
  | KeyError => "KeyError"
  | ValueError => "ValueError"
  | IndexError => "IndexError"
  | ValidationError => "ValidationError"
  end.

(** Every cached record satisfies the [DownstreamData] field constraints. *)
Definition cache_valid (self : MapsAdapter.t) : Prop :=
  Forall (fun entry => valid_DownstreamData (fst (snd entry)))
    (MapsAdapter.cache self).

(** The accident registry holds each road at most once, as a dict does. *)
Definition accidents_wf (self : MapsAdapter.t) : Prop :=
  NoDup (map fst (MapsAdapter.active_accidents self)).

(** The draws of an environment that come from [random.random()] lie in
    [0, 1]. *)
Definition draws_in_unit (env : MapsAdapter.Env) : Prop :=
  0 <= MapsAdapter.u_time env <= 1 /\
  0 <= MapsAdapter.u_weather env <= 1 /\
  0 <= MapsAdapter.u_variation env <= 1 /\
  0 <= MapsAdapter.u_roll env <= 1 /\
  0 <= MapsAdapter.u_accident env <= 1.

(** A weekday morning at 08:00, clock 1000, every draw at 1/2. *)
Definition env_rush_hour : MapsAdapter.Env :=
  {| MapsAdapter.check_clock := 1000;
     MapsAdapter.accident_clock := 1000;
     MapsAdapter.store_clock := 1000;
     MapsAdapter.hour := 8;
     MapsAdapter.day_of_week := 2;
     MapsAdapter.u_time := 1 / 2;
     MapsAdapter.u_weather := 1 / 2;
     MapsAdapter.u_variation := 1 / 2;
     MapsAdapter.u_roll := 1 / 2;
     MapsAdapter.accident_duration := 1800;
     MapsAdapter.u_accident := 1 / 2 |}.

(** The same environment thirty seconds later. *)
Definition env_rush_hour_later : MapsAdapter.Env :=
  {| MapsAdapter.check_clock := 1030;
     MapsAdapter.accident_clock := 1030;
     MapsAdapter.store_clock := 1030;
     MapsAdapter.hour := 8;
     MapsAdapter.day_of_week := 2;
     MapsAdapter.u_time := 0;
     MapsAdapter.u_weather := 1;
     MapsAdapter.u_variation := 1;
     MapsAdapter.u_roll := 0;
     MapsAdapter.accident_duration := 900;
     MapsAdapter.u_accident := 1 |}.

(** What every entry of a traffic summary satisfies. *)
Definition summary_entry_ok (item : string * MapsAdapter.SummaryEntry)
  : Prop :=
  let e := snd item in
  0 <= MapsAdapter.speed e <= 100 /\
  0 <= MapsAdapter.congestion e <= 1 /\
  (MapsAdapter.level e = "Light"%string <-> MapsAdapter.congestion e < 0.3) /\
  (MapsAdapter.level e = "Moderate"%string <->
   0.3 <= MapsAdapter.congestion e < 0.6) /\
  (MapsAdapter.level e = "Heavy"%string <->
   0.6 <= MapsAdapter.congestion e < 0.8) /\
  (MapsAdapter.level e = "Gridlock"%string <->
   0.8 <= MapsAdapter.congestion e).

(** ** Proof support *)

(** Settles the comparisons of reals that guard a branch, where linear
    arithmetic decides them. *)
Ltac settle_cmp :=
  repeat match goal with
    | |- context [Rle_dec ?a ?b] => destruct (Rle_dec a b); try lra
    | |- context [Rlt_dec ?a ?b] => destruct (Rlt_dec a b); try lra
    | |- context [Rgt_dec ?a ?b] => destruct (Rgt_dec a b); try lra
    end.

Definition has_ambulance (item : LaneDirection * LaneState) : Prop :=
  ambulanceDetected (vision (snd item)) = true.

Definition waited_too_long (item : LaneDirection * LaneState) : Prop :=
  waitTime (snd item) > 120.

(** [pre ++ (d, lane) :: post] splits [lanes] at its first item with [P]. *)
Definition first_match (P : LaneDirection * LaneState -> Prop)
    (lanes pre : dict LaneState) (d : LaneDirection) (lane : LaneState)
    (post : dict LaneState) : Prop :=
  lanes = pre ++ (d, lane) :: post /\
  Forall (fun item => ~ P item) pre /\
  P (d, lane).

Lemma dict_get_in {V : Type} (d : dict V) (k : LaneDirection) (v : V) :
  is_dict d -> In (k, v) d -> dict_get k d = Ok v.
Proof.
  unfold is_dict, keys.
  induction d as [|[k' v'] r IH]; simpl; intros Hnd Hin; [contradiction|].
  inversion Hnd as [|? ? Hnotin Hnd']; subst.
  destruct Hin as [Heq|Hin].
  - inversion Heq; subst.
    destruct (LaneDirection_eq_dec k k); [reflexivity|congruence].
  - destruct (LaneDirection_eq_dec k k') as [->|_].
    + exfalso. apply Hnotin. apply (in_map fst) in Hin. exact Hin.
    + apply IH; assumption.
Qed.

Lemma dict_get_key {V : Type} (d : dict V) (k : LaneDirection) :
  In k (keys d) -> exists v, dict_get k d = Ok v /\ In (k, v) d.
Proof.
  unfold keys.
  induction d as [|[k' v'] r IH]; simpl; intros Hin; [contradiction|].
  destruct (LaneDirection_eq_dec k k') as [->|Hne].
  - exists v'. split; [reflexivity|left; reflexivity].
  - destruct Hin as [Heq|Hin]; [congruence|].
    destruct (IH Hin) as [v [Hget Hv]]. exists v. split; [exact Hget|].
    right; exact Hv.
Qed.

Lemma check_emergency_none (lanes : dict LaneState) :
  Forall (fun item => ~ has_ambulance item) lanes ->
  _check_emergency lanes = None.
Proof.
  induction 1 as [|[d l] r Hx _ IH]; simpl; [reflexivity|].
  unfold has_ambulance in Hx; simpl in Hx.
  destruct (ambulanceDetected (vision l)); [congruence|exact IH].
Qed.

Lemma check_emergency_first (lanes : dict LaneState) :
  Exists has_ambulance lanes ->
  exists pre d lane post,
    first_match has_ambulance lanes pre d lane post /\
    _check_emergency lanes = Some d.
Proof.
  induction lanes as [|[d l] r IH]; intros Hex; [inversion Hex|].
  simpl. destruct (ambulanceDetected (vision l)) eqn:Hamb.
  - exists [], d, l, r. repeat split; auto.
  - assert (Hr : Exists has_ambulance r).
    { inversion Hex as [? ? Hh|? ? Hh]; subst; [|exact Hh].
      unfold has_ambulance in Hh; simpl in Hh; congruence. }
    destruct (IH Hr) as (pre & d' & l' & post & (Heq & Hpre & Hp) & Hchk).
    exists ((d, l) :: pre), d', l', post. repeat split.
    + simpl. now rewrite Heq.
    + constructor; [|exact Hpre].
      unfold has_ambulance; simpl; congruence.
    + exact Hp.
    + exact Hchk.
Qed.

Lemma check_max_wait_none (lanes : dict LaneState) :
  Forall (fun item => ~ waited_too_long item) lanes ->
  _check_max_wait lanes = None.
Proof.
  induction 1 as [|[d l] r Hx _ IH]; simpl; [reflexivity|].
  unfold waited_too_long in Hx; simpl in Hx.
  unfold MAX_WAIT_TIME in *.
  destruct (Rgt_dec (waitTime l) 120.0); [lra|exact IH].
Qed.

Lemma check_max_wait_first (lanes : dict LaneState) :
  Exists waited_too_long lanes ->
  exists pre d lane post,
    first_match waited_too_long lanes pre d lane post /\
    _check_max_wait lanes = Some d.
Proof.
  induction lanes as [|[d l] r IH]; intros Hex; [inversion Hex|].
  simpl. unfold MAX_WAIT_TIME.
  destruct (Rgt_dec (waitTime l) 120.0) as [Hgt|Hle].
  - exists [], d, l, r. repeat split; auto.
    unfold waited_too_long; simpl; lra.
  - assert (Hr : Exists waited_too_long r).
    { inversion Hex as [? ? Hh|? ? Hh]; subst; [|exact Hh].
      unfold waited_too_long in Hh; simpl in Hh; lra. }
    destruct (IH Hr) as (pre & d' & l' & post & (Heq & Hpre & Hp) & Hchk).
    exists ((d, l) :: pre), d', l', post. repeat split.
    + simpl. now rewrite Heq.
    + constructor; [|exact Hpre].
      unfold waited_too_long; simpl; lra.
    + exact Hp.
    + exact Hchk.
Qed.

(** ** Safety overrides *)

(** C1 (emergency precedence).  Whenever some lane of the snapshot has
    [ambulanceDetected] set, [decide] returns a decision for the first such
    lane in the snapshot's iteration order, with green duration
    [MAX_GREEN] = 60, confidence 1, and a reason trace carrying
    [emergency = true], the sentinel [localTrafficScore = 999] and
    [softmaxProbability = 1]; clock, sampled index and every other field of
    the snapshot are arbitrary. *)
Theorem emergency_precedence (now stamp : R) (draw : nat)
    (lanes : dict LaneState) :
  Exists has_ambulance lanes ->
  exists pre d lane post dec,
    first_match has_ambulance lanes pre d lane post /\
    decide now stamp draw lanes = Ok dec /\
    selectedLane dec = d /\
    greenDuration dec = MAX_GREEN /\ MAX_GREEN = 60 /\
    decisionConfidence dec = 1 /\
    DecisionReason.emergency (reasonTrace dec) = true /\
    DecisionReason.localTrafficScore (reasonTrace dec) = 999 /\
    DecisionReason.softmaxProbability (reasonTrace dec) = 1.
Proof.
  intros Hex.
  destruct (check_emergency_first lanes Hex)
    as (pre & d & lane & post & Hfirst & Hchk).
  exists pre, d, lane, post.
  unfold decide. rewrite Hchk.
  unfold _create_emergency_decision, new_SignalDecision, MAX_GREEN.
  settle_cmp.
  eexists. split; [exact Hfirst|]. split; [reflexivity|].
  simpl. repeat split; lra.
Qed.

Lemma emergency_precedence_witness :
  Exists has_ambulance snapshot_two_ambulances /\
  exists dec,
    decide 1000 1001 0 snapshot_two_ambulances = Ok dec /\
    selectedLane dec = South /\ greenDuration dec = 60.
Proof.
  assert (Hex : Exists has_ambulance snapshot_two_ambulances).
  { apply Exists_cons_tl. apply Exists_cons_hd. reflexivity. }
  split; [exact Hex|].
  destruct (emergency_precedence 1000 1001 0 snapshot_two_ambulances Hex)
    as (pre & d & lane & post & dec & (Heq & Hpre & Hp) & Hdec & Hsel
        & Hdur & Hmax & _).
  exists dec. split; [exact Hdec|]. split; [|lra].
  rewrite Hsel.
  destruct pre as [|p0 [|p1 pre]].
  - inversion Heq; subst. discriminate Hp.
  - inversion Heq; subst. reflexivity.
  - inversion Heq; subst. inversion Hpre as [|? ? _ Hpre']; subst.
    inversion Hpre' as [|? ? Hno _]; subst.
    exfalso. apply Hno. reflexivity.
Defined.

(** C2 (max-wait precedence).  When no lane has [ambulanceDetected] set and
    some lane's [waitTime] exceeds [MAX_WAIT_TIME] = 120, [decide] returns a
    decision for the first such lane in the snapshot's iteration order, with
    green duration [MIN_GREEN] = 5, confidence 1 and a reason trace carrying
    [maxWaitViolation = true]. *)
Theorem max_wait_precedence (now stamp : R) (draw : nat)
    (lanes : dict LaneState) :
  Forall (fun item => ~ has_ambulance item) lanes ->
  Exists waited_too_long lanes ->
  exists pre d lane post dec,
    first_match waited_too_long lanes pre d lane post /\
    decide now stamp draw lanes = Ok dec /\
    selectedLane dec = d /\
    greenDuration dec = MIN_GREEN /\ MIN_GREEN = 5 /\
    decisionConfidence dec = 1 /\
    DecisionReason.maxWaitViolation (reasonTrace dec) = true /\
    DecisionReason.emergency (reasonTrace dec) = false.
Proof.
  intros Hno Hex.
  destruct (check_max_wait_first lanes Hex)
    as (pre & d & lane & post & Hfirst & Hchk).
  exists pre, d, lane, post.
  unfold decide. rewrite (check_emergency_none lanes Hno), Hchk.
  unfold _create_forced_decision.
  destruct (dict_get_key lanes d) as (l & Hget & _).
  { destruct Hfirst as (Heq & _). rewrite Heq. unfold keys.
    rewrite map_app. apply in_or_app. right. left. reflexivity. }
  rewrite Hget. simpl.
  unfold new_SignalDecision, MIN_GREEN.
  settle_cmp.
  eexists. split; [exact Hfirst|]. split; [reflexivity|].
  simpl. repeat split; lra.
Qed.

Lemma max_wait_precedence_witness :
  Forall (fun item => ~ has_ambulance item) snapshot_long_wait /\
  Exists waited_too_long snapshot_long_wait /\
  exists dec,
    decide 1000 1001 0 snapshot_long_wait = Ok dec /\
    selectedLane dec = East /\ greenDuration dec = 5.
Proof.
  assert (Hno : Forall (fun item => ~ has_ambulance item) snapshot_long_wait).
  { repeat constructor; unfold has_ambulance; simpl; discriminate. }
  assert (Hex : Exists waited_too_long snapshot_long_wait).
  { do 2 apply Exists_cons_tl. apply Exists_cons_hd.
    unfold waited_too_long; simpl; lra. }
  split; [exact Hno|]. split; [exact Hex|].
  destruct (max_wait_precedence 1000 1001 0 snapshot_long_wait Hno Hex)
    as (pre & d & lane & post & dec & (Heq & Hpre & Hp) & Hdec & Hsel
        & Hdur & Hmin & _).
  exists dec. split; [exact Hdec|]. split; [|lra].
  rewrite Hsel.
  destruct pre as [|p0 [|p1 [|p2 pre]]].
  - inversion Heq; subst. unfold waited_too_long in Hp; simpl in Hp. lra.
  - inversion Heq; subst. unfold waited_too_long in Hp; simpl in Hp. lra.
  - inversion Heq; subst. reflexivity.
  - inversion Heq; subst.
    inversion Hpre as [|? ? _ Hpre1]; subst.
    inversion Hpre1 as [|? ? _ Hpre2]; subst.
    inversion Hpre2 as [|? ? Hno2 _]; subst.
    exfalso. apply Hno2. unfold waited_too_long; simpl; lra.
Defined.

(** ** Scoring *)

Lemma speed_factor_nonneg (lane : LaneState) : 0 <= speed_factor lane.
Proof. unfold speed_factor. apply Rmax_l. Qed.

Lemma local_score_unfold (lane : LaneState) :
  _calculate_local_traffic_score lane = spec_local_score lane.
Proof.
  unfold _calculate_local_traffic_score, spec_local_score, spec_weighted_sum,
    speed_factor, VEHICLE_WEIGHTS, RAIN_BIKE_MULTIPLIER.
  replace (avgSpeed (vision lane) / 60.0) with (avgSpeed (vision lane) / 60)
    by lra.
  destruct (rainDetected (vision lane)); ring.
Qed.

Lemma weighted_sum_nonneg (lane : LaneState) :
  counts_nonneg (vehicleCountByType (vision lane)) ->
  0 <= spec_weighted_sum lane.
Proof.
  intros (Hc & Hb & Ht & Hu & He & Hp).
  apply IZR_le in Hc, Hb, Ht, Hu, He, Hp.
  unfold spec_weighted_sum.
  destruct (rainDetected (vision lane)); lra.
Qed.

Lemma local_score_nonneg (lane : LaneState) :
  valid_VisionOutput (vision lane) ->
  counts_nonneg (vehicleCountByType (vision lane)) ->
  0 <= _calculate_local_traffic_score lane.
Proof.
  intros (_ & Hocc & _) Hcounts.
  rewrite local_score_unfold. unfold spec_local_score.
  pose proof (weighted_sum_nonneg lane Hcounts) as Hw.
  pose proof (speed_factor_nonneg lane) as Hs.
  apply Rmult_le_pos; [apply Rmult_le_pos|]; lra.
Qed.

(** C5 (local traffic score).  For every lane the computed score is the
    weighted sum (car 1.0, bike 0.3, truck 1.5, bus 1.5, emergency 10.0,
    pedestrians 0.5, plus the rain bike term under rain) times
    [1 + max(0, 1 - avgSpeed/60)] times [1 + laneOccupancy]; it is
    non-negative on range-valid input with non-negative counts, and it is 0
    when every vehicle count is 0. *)
Theorem local_traffic_score_formula (lane : LaneState) :
  _calculate_local_traffic_score lane
  = spec_weighted_sum lane
    * (1 + Rmax 0 (1 - avgSpeed (vision lane) / 60))
    * (1 + laneOccupancy (vision lane)) /\
  (valid_VisionOutput (vision lane) ->
   counts_nonneg (vehicleCountByType (vision lane)) ->
   0 <= _calculate_local_traffic_score lane) /\
  (counts_zero (vehicleCountByType (vision lane)) ->
   _calculate_local_traffic_score lane = 0).
Proof.
  split; [exact (local_score_unfold lane)|].
  split; [exact (local_score_nonneg lane)|].
  intros (Hc & Hb & Ht & Hu & He & Hp).
  rewrite local_score_unfold.
  unfold spec_local_score, spec_weighted_sum.
  rewrite Hc, Hb, Ht, Hu, He, Hp.
  destruct (rainDetected (vision lane)); ring.
Qed.

Lemma local_traffic_score_formula_witness :
  _calculate_local_traffic_score lane_ten_bikes_jammed = 12 /\
  0 <= _calculate_local_traffic_score lane_ten_bikes_jammed /\
  _calculate_local_traffic_score (quiet_lane East) = 0.
Proof.
  destruct (local_traffic_score_formula lane_ten_bikes_jammed)
    as (Heq & Hnn & _).
  destruct (local_traffic_score_formula (quiet_lane East)) as (_ & _ & Hz).
  split; [|split].
  - rewrite Heq. unfold spec_weighted_sum. simpl.
    unfold Rmax. destruct (Rle_dec 0 (1 - 0 / 60)); lra.
  - apply Hnn.
    + unfold valid_VisionOutput; simpl; lra.
    + unfold counts_nonneg; simpl; lia.
  - apply Hz. unfold counts_zero; simpl. repeat split; reflexivity.
Defined.

(** ** Downstream priority *)

Lemma downstream_priority_none (lane : LaneState) :
  downstream lane = None -> _calculate_downstream_priority lane = 1.
Proof.
  intros H. unfold _calculate_downstream_priority. rewrite H. lra.
Qed.

Lemma downstream_priority_some (lane : LaneState) (d : DownstreamData.t) :
  downstream lane = Some d ->
  _calculate_downstream_priority lane
  = Rmax 0.1 (DownstreamData.avgSpeed d / 60).
Proof.
  intros H. unfold _calculate_downstream_priority. rewrite H.
  replace (DownstreamData.avgSpeed d / 60.0)
    with (DownstreamData.avgSpeed d / 60) by lra.
  reflexivity.
Qed.

Lemma downstream_priority_pos (lane : LaneState) :
  0.1 <= _calculate_downstream_priority lane.
Proof.
  destruct (downstream lane) as [d|] eqn:Hd.
  - rewrite (downstream_priority_some lane d Hd). apply Rmax_l.
  - rewrite (downstream_priority_none lane Hd). lra.
Qed.

(** C6, as stated, fails: a range-valid lane whose downstream speed is
    90 km/h gets the factor 1.5, above the claimed upper bound 1.0. *)
Lemma downstream_priority_not_within_unit :
  ~ (forall lane : LaneState,
       valid_LaneState lane ->
       0.1 <= _calculate_downstream_priority lane <= 1.0).
Proof.
  intros H.
  assert (Hv : valid_LaneState lane_fast_downstream).
  { unfold valid_LaneState, valid_VisionOutput, valid_DownstreamData; simpl.
    lra. }
  specialize (H lane_fast_downstream Hv).
  rewrite (downstream_priority_some lane_fast_downstream _ eq_refl) in H.
  simpl in H. unfold Rmax in H.
  destruct (Rle_dec 0.1 (90 / 60)); lra.
Qed.

(** C6 (amended).  The downstream factor is exactly 1.0 without downstream
    data and [max(0.1, downstreamAvgSpeed/60)] with it; for a downstream
    speed in the validated range [0, 100] it lies in [0.1, 100/60], and it
    lies in [0.1, 1.0] when the downstream speed is at most 60. *)
Theorem downstream_priority_range (lane : LaneState) :
  (downstream lane = None -> _calculate_downstream_priority lane = 1.0) /\
  (forall d : DownstreamData.t,
     downstream lane = Some d ->
     _calculate_downstream_priority lane
     = Rmax 0.1 (DownstreamData.avgSpeed d / 60) /\
     (0 <= DownstreamData.avgSpeed d <= 100 ->
      0.1 <= _calculate_downstream_priority lane <= 100 / 60) /\
     (0 <= DownstreamData.avgSpeed d <= 60 ->
      0.1 <= _calculate_downstream_priority lane <= 1.0)).
Proof.
  split.
  - intros H. rewrite (downstream_priority_none lane H). lra.
  - intros d Hd. rewrite (downstream_priority_some lane d Hd).
    split; [reflexivity|].
    split; intros Hr; unfold Rmax;
      destruct (Rle_dec 0.1 (DownstreamData.avgSpeed d / 60)); lra.
Qed.

Lemma downstream_priority_range_witness :
  _calculate_downstream_priority (quiet_lane North) = 1.0 /\
  _calculate_downstream_priority lane_slow_downstream = 0.5 /\
  _calculate_downstream_priority lane_fast_downstream = 1.5.
Proof.
  destruct (downstream_priority_range (quiet_lane North)) as (Hn & _).
  destruct (downstream_priority_range lane_slow_downstream) as (_ & Hs).
  destruct (downstream_priority_range lane_fast_downstream) as (_ & Hf).
  split; [exact (Hn eq_refl)|].
  split.
  - destruct (Hs _ eq_refl) as (-> & _). simpl. unfold Rmax.
    destruct (Rle_dec 0.1 (30 / 60)); lra.
  - destruct (Hf _ eq_refl) as (-> & _). simpl. unfold Rmax.
    destruct (Rle_dec 0.1 (90 / 60)); lra.
Defined.

(** ** Rain adjustment *)

Lemma rain_score_difference (lane : LaneState) :
  _calculate_local_traffic_score (with_rain true lane)
  - _calculate_local_traffic_score (with_rain false lane)
  = IZR (bike (vehicleCountByType (vision lane))) * 0.3 * (2.0 - 1)
    * (1 + speed_factor lane) * (1 + laneOccupancy (vision lane)).
Proof.
  rewrite !local_score_unfold.
  unfold spec_local_score, spec_weighted_sum, speed_factor. simpl. ring.
Qed.

(** C7, as stated, fails: with ten bikes in standing traffic on a full
    lane, rain raises the score by 12, not by [10 * 0.3 * 1.0] = 3. *)
Lemma rain_increase_not_bike_weight :
  ~ (forall lane : LaneState,
       valid_LaneState lane ->
       (0 < bike (vehicleCountByType (vision lane)))%Z ->
       _calculate_local_traffic_score (with_rain true lane)
       - _calculate_local_traffic_score (with_rain false lane)
       = IZR (bike (vehicleCountByType (vision lane))) * 0.3 * 1.0).
Proof.
  intros H.
  assert (Hv : valid_LaneState lane_ten_bikes_jammed).
  { unfold valid_LaneState, valid_VisionOutput; simpl. lra. }
  specialize (H lane_ten_bikes_jammed Hv).
  rewrite rain_score_difference in H.
  unfold speed_factor in H. simpl in H.
  assert (Hb : (0 < 10)%Z) by lia. specialize (H Hb).
  unfold Rmax in H. destruct (Rle_dec 0 (1 - 0 / 60)); lra.
Qed.

(** C7 (amended).  For a range-valid lane with [bikeCount > 0], setting
    [rainDetected] while holding every other field fixed yields a strictly
    higher local score; the increase is
    [bikeCount * 0.3 * (2.0 - 1) * (1 + speedFactor) * (1 + laneOccupancy)],
    which comes to [bikeCount * 0.3 * 1.0] when the lane has
    [avgSpeed >= 60] and [laneOccupancy = 0]. *)
Theorem rain_raises_bike_score (lane : LaneState) :
  valid_VisionOutput (vision lane) ->
  (0 < bike (vehicleCountByType (vision lane)))%Z ->
  _calculate_local_traffic_score (with_rain true lane)
  > _calculate_local_traffic_score (with_rain false lane) /\
  _calculate_local_traffic_score (with_rain true lane)
  - _calculate_local_traffic_score (with_rain false lane)
  = IZR (bike (vehicleCountByType (vision lane))) * 0.3 * (2.0 - 1)
    * (1 + speed_factor lane) * (1 + laneOccupancy (vision lane)) /\
  (60 <= avgSpeed (vision lane) -> laneOccupancy (vision lane) = 0 ->
   _calculate_local_traffic_score (with_rain true lane)
   - _calculate_local_traffic_score (with_rain false lane)
   = IZR (bike (vehicleCountByType (vision lane))) * 0.3 * 1.0).
Proof.
  intros (Hspeed & Hocc & _) Hbike.
  apply IZR_lt in Hbike.
  pose proof (rain_score_difference lane) as Hdiff.
  pose proof (speed_factor_nonneg lane) as Hs.
  split; [|split].
  - assert (0 < IZR (bike (vehicleCountByType (vision lane))) * 0.3 * (2.0 - 1)
                * (1 + speed_factor lane) * (1 + laneOccupancy (vision lane))).
    { apply Rmult_lt_0_compat; [apply Rmult_lt_0_compat|]; lra. }
    lra.
  - exact Hdiff.
  - intros Hfast Hzero. rewrite Hdiff, Hzero.
    unfold speed_factor, Rmax.
    destruct (Rle_dec 0 (1 - avgSpeed (vision lane) / 60)) as [Hle|Hnle].
    + assert (avgSpeed (vision lane) = 60) as -> by lra. lra.
    + lra.
Qed.

Lemma rain_raises_bike_score_witness :
  _calculate_local_traffic_score (with_rain true lane_ten_bikes_jammed)
  - _calculate_local_traffic_score (with_rain false lane_ten_bikes_jammed)
  = 12 /\
  _calculate_local_traffic_score (with_rain true lane_ten_bikes_free)
  - _calculate_local_traffic_score (with_rain false lane_ten_bikes_free)
  = 3.
Proof.
  assert (Hb : (0 < 10)%Z) by lia.
  split.
  - destruct (rain_raises_bike_score lane_ten_bikes_jammed) as (_ & Hd & _).
    + unfold valid_VisionOutput; simpl; lra.
    + exact Hb.
    + rewrite Hd. unfold speed_factor. simpl. unfold Rmax.
      destruct (Rle_dec 0 (1 - 0 / 60)); lra.
  - destruct (rain_raises_bike_score lane_ten_bikes_free) as (_ & _ & Hd).
    + unfold valid_VisionOutput; simpl; lra.
    + exact Hb.
    + rewrite Hd; simpl; lra.
Defined.

(** ** The loops over a well-formed dict *)

Lemma dict_set_fresh {V : Type} (d : dict V) (k : LaneDirection) (v : V) :
  ~ In k (keys d) -> dict_set k v d = d ++ [(k, v)].
Proof.
  unfold keys.
  induction d as [|[k' v'] r IH]; simpl; intros Hnotin; [reflexivity|].
  destruct (LaneDirection_eq_dec k k') as [->|Hne].
  - exfalso. apply Hnotin. left. reflexivity.
  - rewrite IH; [reflexivity|]. intros Hin. apply Hnotin. right. exact Hin.
Qed.

Lemma nodup_app_cons_fresh {A : Type} (l1 l2 : list A) (a : A) :
  NoDup (l1 ++ a :: l2) -> ~ In a l1 /\ NoDup ((l1 ++ [a]) ++ l2).
Proof.
  intros Hnd. split.
  - apply NoDup_remove_2 in Hnd. intros Hin. apply Hnd.
    apply in_or_app. left. exact Hin.
  - rewrite <- app_assoc. exact Hnd.
Qed.

Section Loops.
Context {A V : Type}.
Variable vf : LaneDirection * A -> V.

Lemma fold_dict_set (step : dict V -> LaneDirection * A -> dict V) :
  (forall acc item, step acc item = dict_set (fst item) (vf item) acc) ->
  forall (l : list (LaneDirection * A)) (acc : dict V),
    NoDup (keys acc ++ map fst l) ->
    fold_left step l acc = acc ++ map (fun item => (fst item, vf item)) l.
Proof.
  intros Hstep.
  induction l as [|item r IH]; intros acc Hnd; simpl.
  - now rewrite app_nil_r.
  - simpl in Hnd. destruct (nodup_app_cons_fresh _ _ _ Hnd) as [Hfresh Hnd'].
    rewrite Hstep, (dict_set_fresh acc _ _ Hfresh).
    rewrite IH.
    + now rewrite <- app_assoc.
    + unfold keys in *. rewrite map_app. exact Hnd'.
Qed.

Lemma foldM_dict_set (l0 : list (LaneDirection * A))
    (step : dict V -> LaneDirection * A -> result (dict V)) :
  (forall acc item, In item l0 ->
     step acc item = Ok (dict_set (fst item) (vf item) acc)) ->
  forall (l : list (LaneDirection * A)) (acc : dict V),
    incl l l0 ->
    NoDup (keys acc ++ map fst l) ->
    foldM step l acc = Ok (acc ++ map (fun item => (fst item, vf item)) l).
Proof.
  intros Hstep.
  induction l as [|item r IH]; intros acc Hincl Hnd; simpl.
  - now rewrite app_nil_r.
  - simpl in Hnd. destruct (nodup_app_cons_fresh _ _ _ Hnd) as [Hfresh Hnd'].
    rewrite Hstep by (apply Hincl; left; reflexivity).
    simpl. rewrite (dict_set_fresh acc _ _ Hfresh).
    rewrite IH.
    + now rewrite <- app_assoc.
    + intros x Hx. apply Hincl. right. exact Hx.
    + unfold keys in *. rewrite map_app. exact Hnd'.
Qed.
End Loops.

Lemma dict_of_items_id {V : Type} (l : list (LaneDirection * V)) :
  NoDup (map fst l) -> dict_of_items l = l.
Proof.
  intros Hnd. unfold dict_of_items.
  rewrite (fold_dict_set snd) by (auto || exact Hnd).
  simpl. rewrite <- (map_id l) at 2. apply map_ext. intros [k v]. reflexivity.
Qed.

Lemma mapM_dict_get {V : Type} (d : dict V) :
  is_dict d -> mapM (fun k => dict_get k d) (keys d) = Ok (values d).
Proof.
  intros Hd.
  assert (H : forall l, incl l d ->
            mapM (fun k => dict_get k d) (map fst l) = Ok (map snd l)).
  { induction l as [|[k v] r IH]; intros Hincl; simpl; [reflexivity|].
    rewrite (dict_get_in d k v Hd) by (apply Hincl; left; reflexivity).
    simpl. rewrite IH by (intros x Hx; apply Hincl; right; exact Hx).
    reflexivity. }
  apply H. apply incl_refl.
Qed.

Lemma net_priorities_closed (lanes : dict LaneState) :
  is_dict lanes ->
  _calculate_net_priorities lanes
  = map (fun item => (fst item, net_priority (snd item))) lanes.
Proof.
  intros Hd. unfold _calculate_net_priorities.
  rewrite (fold_dict_set (fun item => net_priority (snd item))).
  - reflexivity.
  - intros acc [d l]. reflexivity.
  - exact Hd.
Qed.

Lemma keys_map_snd {A B : Type} (f : LaneDirection * A -> B) (d : dict A) :
  keys (map (fun item => (fst item, f item)) d) = keys d.
Proof.
  unfold keys. rewrite map_map. apply map_ext. reflexivity.
Qed.

Lemma recent_green_decay_closed (now : R) (lanes : dict LaneState) :
  is_dict lanes ->
  _apply_recent_green_decay now lanes (_calculate_net_priorities lanes)
  = Ok (adjusted_priorities now lanes).
Proof.
  intros Hd. rewrite (net_priorities_closed lanes Hd).
  unfold _apply_recent_green_decay.
  set (pr := map (fun item => (fst item, net_priority (snd item))) lanes).
  set (vf := fun item : LaneDirection * R =>
               match dict_get (fst item) lanes with
               | Ok lane => snd item * decay_factor now lane
               | Raise _ => snd item
               end).
  rewrite (foldM_dict_set vf pr).
  - simpl. unfold pr, adjusted_priorities. rewrite map_map.
    apply f_equal. apply map_ext_in. intros [d l] Hin. unfold vf. simpl.
    rewrite (dict_get_in lanes d l Hd Hin). reflexivity.
  - intros acc [d p] Hin. unfold pr in Hin.
    apply in_map_iff in Hin. destruct Hin as ([d' l] & Heq & Hin).
    simpl in Heq. inversion Heq; subst.
    unfold vf. simpl. rewrite (dict_get_in lanes d l Hd Hin). reflexivity.
  - apply incl_refl.
  - simpl. unfold pr. fold (keys (map (fun item : LaneDirection * LaneState =>
      (fst item, net_priority (snd item))) lanes)).
    rewrite keys_map_snd. exact Hd.
Qed.

(** ** Net priority and recency decay *)

Lemma decay_factor_min (now : R) (lane : LaneState) :
  decay_factor now lane = spec_decay now lane.
Proof.
  unfold decay_factor, spec_decay, RECENT_GREEN_DECAY_WINDOW, Rmin.
  destruct (Rlt_dec (now - lastGreenTime lane) 30.0);
    destruct (Rle_dec 1 ((now - lastGreenTime lane) / 30)); lra.
Qed.

Lemma adjusted_priorities_spec (now : R) (lanes : dict LaneState) :
  adjusted_priorities now lanes
  = map (fun item => (fst item, spec_adjusted_priority now (snd item))) lanes.
Proof.
  unfold adjusted_priorities. apply map_ext. intros [d l]. simpl.
  unfold spec_adjusted_priority, net_priority.
  now rewrite decay_factor_min.
Qed.

Lemma snapshot_mixed_is_dict : is_dict snapshot_mixed.
Proof.
  unfold is_dict, snapshot_mixed, keys. simpl.
  repeat constructor; simpl; intuition discriminate.
Qed.

(** C8 (adjusted priority).  On a well-formed snapshot the priorities
    handed to the softmax are, lane by lane,
    [localScore * downstreamFactor^2 * min(1, (now - lastGreenTime)/30)];
    so a lane whose [lastGreenTime] is [now] enters with priority 0, and a
    lane with [now - lastGreenTime >= 30] enters with its full net priority
    [localScore * downstreamFactor^2]. *)
Theorem adjusted_priority_formula (now : R) (lanes : dict LaneState) :
  is_dict lanes ->
  exists adjusted : dict R,
    _apply_recent_green_decay now lanes (_calculate_net_priorities lanes)
    = Ok adjusted /\
    keys adjusted = keys lanes /\
    forall d lane, In (d, lane) lanes ->
      dict_get d adjusted
      = Ok (_calculate_local_traffic_score lane
            * (_calculate_downstream_priority lane) ^ 2
            * Rmin 1 ((now - lastGreenTime lane) / 30)) /\
      (lastGreenTime lane = now -> dict_get d adjusted = Ok 0) /\
      (now - lastGreenTime lane >= 30 ->
       dict_get d adjusted
       = Ok (_calculate_local_traffic_score lane
             * (_calculate_downstream_priority lane) ^ 2)).
Proof.
  intros Hd. exists (adjusted_priorities now lanes).
  split; [exact (recent_green_decay_closed now lanes Hd)|].
  rewrite adjusted_priorities_spec.
  split; [apply keys_map_snd|].
  intros d lane Hin.
  assert (Hget : dict_get d
            (map (fun item => (fst item, spec_adjusted_priority now (snd item)))
               lanes)
          = Ok (spec_adjusted_priority now lane)).
  { apply dict_get_in.
    - unfold is_dict. rewrite keys_map_snd. exact Hd.
    - apply in_map_iff. exists (d, lane). split; [reflexivity|exact Hin]. }
  rewrite Hget. unfold spec_adjusted_priority, spec_decay.
  split; [reflexivity|]. split.
  - intros ->. f_equal. unfold Rmin.
    destruct (Rle_dec 1 ((now - now) / 30)); [lra|].
    replace ((now - now) / 30) with 0 by lra. ring.
  - intros Hge. f_equal. unfold Rmin.
    destruct (Rle_dec 1 ((now - lastGreenTime lane) / 30)); [ring|lra].
Qed.

Lemma adjusted_priority_formula_witness :
  is_dict snapshot_mixed /\
  exists adjusted : dict R,
    _apply_recent_green_decay 1000 snapshot_mixed
      (_calculate_net_priorities snapshot_mixed) = Ok adjusted /\
    dict_get North adjusted = Ok 0 /\
    dict_get South adjusted = Ok (3 * 1.5 ^ 2) /\
    dict_get East adjusted = Ok (20 * (1 / 2)).
Proof.
  split; [exact snapshot_mixed_is_dict|].
  destruct (adjusted_priority_formula 1000 snapshot_mixed
              snapshot_mixed_is_dict) as (adjusted & Hrun & _ & Hall).
  exists adjusted. split; [exact Hrun|].
  split; [|split].
  - destruct (Hall North _ (or_introl eq_refl)) as (_ & Hzero & _).
    apply Hzero. reflexivity.
  - destruct (Hall South _ (or_intror (or_introl eq_refl))) as (_ & _ & Hfull).
    rewrite Hfull by (simpl; lra). f_equal.
    rewrite local_score_unfold.
    rewrite (downstream_priority_some mixed_south _ eq_refl).
    unfold spec_local_score, spec_weighted_sum, speed_factor. simpl.
    unfold Rmax.
    destruct (Rle_dec 0 (1 - 60 / 60)); destruct (Rle_dec 0.1 (90 / 60)); lra.
  - destruct (Hall East _ (or_intror (or_intror (or_introl eq_refl))))
      as (Hval & _).
    rewrite Hval. f_equal.
    rewrite local_score_unfold, (downstream_priority_none mixed_east eq_refl).
    unfold spec_local_score, spec_weighted_sum, speed_factor. simpl.
    unfold Rmax, Rmin.
    destruct (Rle_dec 0 (1 - 60 / 60));
      destruct (Rle_dec 1 ((1000 - 985) / 30)); lra.
Defined.

(** ** Softmax *)

Lemma np_sum_pos (l : list R) :
  l <> [] -> Forall (fun x => 0 < x) l -> 0 < np_sum l.
Proof.
  intros Hne Hall. destruct l as [|x r]; [congruence|].
  clear Hne. revert x Hall.
  induction r as [|y r IH]; intros x Hall; inversion Hall; subst; simpl.
  - lra.
  - specialize (IH y H2). simpl in IH. lra.
Qed.

Lemma np_sum_scale (t : R) (l : list R) :
  np_sum (map (fun e => e / t) l) = np_sum l / t.
Proof.
  induction l as [|x r IH]; simpl; [lra|]. rewrite IH. lra.
Qed.

Lemma np_sum_bounds_member (l : list R) (x : R) :
  Forall (fun y => 0 < y) l -> In x l -> x <= np_sum l.
Proof.
  induction 1 as [|y r Hy Hr IH]; simpl; intros Hin; [contradiction|].
  assert (Hsum : 0 <= np_sum r).
  { destruct r as [|z r']; [simpl; lra|].
    apply Rlt_le, np_sum_pos; [discriminate|exact Hr]. }
  destruct Hin as [->|Hin]; [lra|]. specialize (IH Hin). lra.
Qed.

Lemma exp_values_pos (m : R) (l : list R) :
  Forall (fun x => 0 < x) (map (fun s => exp (s - m)) l).
Proof.
  apply Forall_forall. intros x Hin. apply in_map_iff in Hin.
  destruct Hin as (s & <- & _). apply exp_pos.
Qed.

Lemma softmax_values_length (t : R) (vals : list R) :
  List.length (softmax_values t vals) = List.length vals.
Proof.
  unfold softmax_values.
  destruct (map (fun v => v / t) (map (fun v => v + 1e-6) vals))
    as [|x s] eqn:Hs.
  - destruct vals; [reflexivity|discriminate].
  - rewrite !length_map, <- Hs, !length_map. reflexivity.
Qed.

Lemma softmax_values_pos (t : R) (vals : list R) :
  Forall (fun p => 0 < p) (softmax_values t vals).
Proof.
  unfold softmax_values.
  destruct (map (fun v => v / t) (map (fun v => v + 1e-6) vals))
    as [|x s]; [constructor|].
  set (m := fold_left Rmax s x).
  pose proof (exp_values_pos m (x :: s)) as Hpos.
  assert (Htot : 0 < np_sum (map (fun s => exp (s - m)) (x :: s))).
  { apply np_sum_pos; [discriminate|exact Hpos]. }
  apply Forall_forall. intros p Hin. apply in_map_iff in Hin.
  destruct Hin as (e & <- & Hin).
  rewrite Forall_forall in Hpos. specialize (Hpos e Hin).
  apply Rdiv_lt_0_compat; assumption.
Qed.

Lemma softmax_values_sum (t : R) (vals : list R) :
  vals <> [] -> np_sum (softmax_values t vals) = 1.
Proof.
  intros Hne. unfold softmax_values.
  destruct (map (fun v => v / t) (map (fun v => v + 1e-6) vals))
    as [|x s] eqn:Hs.
  - destruct vals; [congruence|discriminate].
  - set (m := fold_left Rmax s x).
    assert (Htot : 0 < np_sum (map (fun s => exp (s - m)) (x :: s))).
    { apply np_sum_pos; [discriminate|apply exp_values_pos]. }
    rewrite np_sum_scale. field. lra.
Qed.

Lemma keys_combine {V : Type} (ks : list LaneDirection) (vs : list V) :
  List.length ks = List.length vs -> map fst (combine ks vs) = ks.
Proof.
  revert vs.
  induction ks as [|k ks IH]; intros [|v vs] Hlen; simpl in *;
    try discriminate; [reflexivity|].
  f_equal. apply IH. lia.
Qed.

Lemma values_combine {V : Type} (ks : list LaneDirection) (vs : list V) :
  List.length ks = List.length vs -> map snd (combine ks vs) = vs.
Proof.
  revert vs.
  induction ks as [|k ks IH]; intros [|v vs] Hlen; simpl in *;
    try discriminate; [reflexivity|].
  f_equal. apply IH. lia.
Qed.

Lemma softmax_closed (priorities : dict R) (t : R) :
  is_dict priorities -> priorities <> [] ->
  _softmax priorities t
  = Ok (combine (keys priorities) (softmax_values t (values priorities))).
Proof.
  intros Hd Hne. unfold _softmax.
  rewrite (mapM_dict_get priorities Hd). cbn [bind].
  assert (Hlen : List.length (keys priorities)
                 = List.length (softmax_values t (values priorities))).
  { rewrite softmax_values_length. unfold keys, values.
    now rewrite !length_map. }
  revert Hlen. unfold softmax_values.
  destruct (map (fun v => v / t) (map (fun v => v + 1e-6) (values priorities)))
    as [|x s] eqn:Hs.
  - destruct priorities; [congruence|discriminate].
  - cbn [np_max bind]. intros Hlen.
    rewrite dict_of_items_id; [reflexivity|].
    rewrite keys_combine by exact Hlen. exact Hd.
Qed.

Lemma softmax_run (priorities : dict R) (t : R) :
  is_dict priorities -> priorities <> [] ->
  exists probs : dict R,
    _softmax priorities t = Ok probs /\
    keys probs = keys priorities /\
    is_dict probs /\
    Forall (fun p => 0 < p) (values probs) /\
    np_sum (values probs) = 1.
Proof.
  intros Hd Hne.
  exists (combine (keys priorities) (softmax_values t (values priorities))).
  assert (Hlen : List.length (keys priorities)
                 = List.length (softmax_values t (values priorities))).
  { rewrite softmax_values_length. unfold keys, values.
    now rewrite !length_map. }
  assert (Hkeys : keys (combine (keys priorities)
                          (softmax_values t (values priorities)))
                  = keys priorities).
  { unfold keys at 1. apply keys_combine. exact Hlen. }
  assert (Hvals : values (combine (keys priorities)
                            (softmax_values t (values priorities)))
                  = softmax_values t (values priorities)).
  { unfold values at 1. apply values_combine. exact Hlen. }
  split; [exact (softmax_closed priorities t Hd Hne)|].
  split; [exact Hkeys|].
  split; [unfold is_dict; rewrite Hkeys; exact Hd|].
  rewrite Hvals. split; [apply softmax_values_pos|].
  apply softmax_values_sum. destruct priorities; [congruence|discriminate].
Qed.

Lemma dict_get_value {V : Type} (d : dict V) (k : LaneDirection) :
  In k (keys d) -> exists v, dict_get k d = Ok v /\ In v (values d).
Proof.
  intros Hin. destruct (dict_get_key d k Hin) as (v & Hget & Hv).
  exists v. split; [exact Hget|].
  unfold values. apply in_map_iff. exists (k, v). split; [reflexivity|exact Hv].
Qed.



(** ** Green duration *)

Lemma green_duration_clamped (lane : LaneState) :
  _calculate_green_duration lane = spec_green_duration lane.
Proof.
  unfold _calculate_green_duration, spec_green_duration, clamp,
    MIN_GREEN, MAX_GREEN.
  replace (_calculate_local_traffic_score lane / 50.0)
    with (_calculate_local_traffic_score lane / 50) by lra.
  replace 1.0 with 1 by lra.
  replace 5.0 with 5 by lra. replace 60.0 with 60 by lra.
  f_equal. f_equal. ring.
Qed.

Lemma green_duration_bounds (lane : LaneState) :
  5 <= _calculate_green_duration lane <= 60.
Proof.
  rewrite green_duration_clamped. unfold spec_green_duration, clamp.
  split; [apply Rmax_l|].
  apply Rmax_lub; [lra|apply Rmin_l].
Qed.

(** ** Running the pipeline *)

Lemma new_SignalDecision_ok (lane : LaneDirection) (duration confidence : R)
    (reason : DecisionReason.t) (stamp : R) :
  5 <= duration <= 120 -> 0 <= confidence <= 1 ->
  new_SignalDecision lane duration confidence reason stamp
  = Ok {| selectedLane := lane; greenDuration := duration;
          decisionConfidence := confidence; reasonTrace := reason;
          timestamp := stamp |}.
Proof.
  intros Hd Hc. unfold new_SignalDecision. settle_cmp. reflexivity.
Qed.

Lemma new_SignalDecision_inv (lane : LaneDirection) (duration confidence : R)
    (reason : DecisionReason.t) (stamp : R) (dec : SignalDecision) :
  new_SignalDecision lane duration confidence reason stamp = Ok dec ->
  dec = {| selectedLane := lane; greenDuration := duration;
           decisionConfidence := confidence; reasonTrace := reason;
           timestamp := stamp |}.
Proof.
  unfold new_SignalDecision.
  destruct (Rle_dec 5 duration); [|discriminate].
  destruct (Rle_dec duration 120); [|discriminate].
  destruct (Rle_dec 0 confidence); [|discriminate].
  destruct (Rle_dec confidence 1); [|discriminate].
  intros H. inversion H. reflexivity.
Qed.

Lemma bind_ok {A B : Type} (c : result A) (k : A -> result B) (b : B) :
  bind c k = Ok b -> exists a, c = Ok a /\ k a = Ok b.
Proof.
  destruct c as [a|e]; simpl; [|discriminate].
  intros H. exists a. split; [reflexivity|exact H].
Qed.

Lemma dict_get_ok_in {V : Type} (d : dict V) (k : LaneDirection) (v : V) :
  dict_get k d = Ok v -> In (k, v) d.
Proof.
  induction d as [|[k' v'] r IH]; simpl; [discriminate|].
  destruct (LaneDirection_eq_dec k k') as [->|_].
  - intros H. inversion H. left. reflexivity.
  - intros H. right. apply IH. exact H.
Qed.

Lemma check_emergency_key (lanes : dict LaneState) (d : LaneDirection) :
  _check_emergency lanes = Some d -> In d (keys lanes).
Proof.
  induction lanes as [|[d' l] r IH]; simpl; [discriminate|].
  destruct (ambulanceDetected (vision l)).
  - intros H. inversion H. left. reflexivity.
  - intros H. right. apply IH. exact H.
Qed.

Lemma check_max_wait_key (lanes : dict LaneState) (d : LaneDirection) :
  _check_max_wait lanes = Some d -> In d (keys lanes).
Proof.
  induction lanes as [|[d' l] r IH]; simpl; [discriminate|].
  destruct (Rgt_dec (waitTime l) MAX_WAIT_TIME).
  - intros H. inversion H. left. reflexivity.
  - intros H. right. apply IH. exact H.
Qed.

Lemma no_negative_entry (l : list R) :
  Forall (fun p => 0 < p) l ->
  existsb (fun x => if Rlt_dec x 0 then true else false) l = false.
Proof.
  induction 1 as [|x r Hx _ IH]; simpl; [reflexivity|].
  destruct (Rlt_dec x 0); [lra|exact IH].
Qed.

Lemma random_choice_accepts (draw : nat) (p : list R) :
  p <> [] -> Forall (fun x => 0 < x) p -> np_sum p = 1 ->
  np_random_choice draw (List.length p) p = Ok draw.
Proof.
  intros Hne Hpos Hsum. unfold np_random_choice.
  destruct p as [|x r]; [congruence|].
  cbn [List.length Nat.eqb]. rewrite Nat.eqb_refl. cbn [negb].
  rewrite (no_negative_entry _ Hpos), Hsum.
  replace (1 - 1) with 0 by lra. rewrite Rabs_R0.
  unfold choice_atol. settle_cmp. reflexivity.
Qed.

Lemma select_lane_run (draw : nat) (probs : dict R) (sel : LaneDirection) :
  is_dict probs ->
  Forall (fun x => 0 < x) (values probs) -> np_sum (values probs) = 1 ->
  nth_error (keys probs) draw = Some sel ->
  _select_lane draw probs = Ok sel.
Proof.
  intros Hd Hpos Hsum Hnth. unfold _select_lane.
  rewrite (mapM_dict_get probs Hd). cbn [bind].
  replace (List.length (keys probs)) with (List.length (values probs))
    by (unfold keys, values; now rewrite !length_map).
  rewrite random_choice_accepts; try assumption.
  - cbn [bind]. unfold list_index. now rewrite Hnth.
  - intros Hnil. unfold keys, values in *.
    destruct probs; [destruct draw; discriminate|discriminate].
Qed.

Lemma adjusted_is_dict (now : R) (lanes : dict LaneState) :
  is_dict lanes -> is_dict (adjusted_priorities now lanes).
Proof.
  intros Hd. unfold is_dict, adjusted_priorities.
  rewrite keys_map_snd. exact Hd.
Qed.

(** On a well-formed snapshot with no override the pipeline runs to the
    end: the sampled index picks lane [sel], and the decision carries that
    lane's green duration and softmax probability. *)
Lemma scoring_path_run (now stamp : R) (draw : nat) (lanes : dict LaneState) :
  is_dict lanes -> (draw < List.length lanes)%nat ->
  _check_emergency lanes = None -> _check_max_wait lanes = None ->
  exists probs sel lane p,
    _softmax (adjusted_priorities now lanes) TEMPERATURE = Ok probs /\
    nth_error (keys lanes) draw = Some sel /\
    In (sel, lane) lanes /\
    dict_get sel probs = Ok p /\ 0 < p <= 1 /\
    decide now stamp draw lanes
    = Ok {| selectedLane := sel;
            greenDuration := _calculate_green_duration lane;
            decisionConfidence := p;
            reasonTrace :=
              {| DecisionReason.emergency := false;
                 DecisionReason.maxWaitViolation := false;
                 DecisionReason.downstreamPenalty :=
                   1.0 - _calculate_downstream_priority lane;
                 DecisionReason.recentGreenDecay := 1.0;
                 DecisionReason.softmaxProbability := p;
                 DecisionReason.localTrafficScore :=
                   _calculate_local_traffic_score lane |};
            timestamp := stamp |}.
Proof.
  intros Hd Hdraw Hemer Hwait.
  assert (Hne : adjusted_priorities now lanes <> []).
  { unfold adjusted_priorities. destruct lanes; [simpl in Hdraw; lia|].
    discriminate. }
  destruct (softmax_run _ TEMPERATURE (adjusted_is_dict now lanes Hd) Hne)
    as (probs & Hrun & Hkeys & Hpd & Hpos & Hsum).
  assert (Hk : keys probs = keys lanes).
  { rewrite Hkeys. unfold adjusted_priorities. apply keys_map_snd. }
  destruct (nth_error (keys lanes) draw) as [sel|] eqn:Hnth.
  2:{ apply nth_error_None in Hnth. unfold keys in Hnth.
      rewrite length_map in Hnth. lia. }
  assert (Hsel : In sel (keys lanes)) by (eapply nth_error_In; exact Hnth).
  destruct (dict_get_key lanes sel Hsel) as (lane & Hlane & Hin).
  destruct (dict_get_value probs sel) as (p & Hp & Hpin);
    [rewrite Hk; exact Hsel|].
  assert (Hprange : 0 < p <= 1).
  { split.
    - rewrite Forall_forall in Hpos. apply Hpos. exact Hpin.
    - rewrite <- Hsum. apply np_sum_bounds_member; assumption. }
  exists probs, sel, lane, p.
  split; [exact Hrun|]. split; [reflexivity|]. split; [exact Hin|].
  split; [exact Hp|]. split; [exact Hprange|].
  unfold decide. rewrite Hemer, Hwait.
  rewrite (recent_green_decay_closed now lanes Hd). cbn [bind].
  rewrite Hrun. cbn [bind].
  rewrite (select_lane_run draw probs sel Hpd Hpos Hsum)
    by (rewrite Hk; exact Hnth).
  cbn [bind]. rewrite Hlane. cbn [bind].
  unfold _create_decision. rewrite Hlane, Hp. cbn [bind].
  apply new_SignalDecision_ok.
  - pose proof (green_duration_bounds lane). lra.
  - lra.
Qed.

Lemma decide_returns (now stamp : R) (draw : nat) (lanes : dict LaneState) :
  is_dict lanes -> (draw < List.length lanes)%nat ->
  exists dec, decide now stamp draw lanes = Ok dec.
Proof.
  intros Hd Hdraw.
  destruct (_check_emergency lanes) as [d|] eqn:Hemer.
  - unfold decide. rewrite Hemer. unfold _create_emergency_decision.
    rewrite new_SignalDecision_ok by (unfold MAX_GREEN; lra).
    eexists. reflexivity.
  - destruct (_check_max_wait lanes) as [d|] eqn:Hwait.
    + unfold decide. rewrite Hemer, Hwait. unfold _create_forced_decision.
      destruct (dict_get_key lanes d (check_max_wait_key lanes d Hwait))
        as (l & Hget & _).
      rewrite Hget. cbn [bind].
      rewrite new_SignalDecision_ok by (unfold MIN_GREEN; lra).
      eexists. reflexivity.
    + destruct (scoring_path_run now stamp draw lanes Hd Hdraw Hemer Hwait)
        as (probs & sel & lane & p & _ & _ & _ & _ & _ & Hdec).
      eexists. exact Hdec.
Qed.

Lemma scoring_path_inv (now stamp : R) (draw : nat) (lanes : dict LaneState)
    (dec : SignalDecision) :
  _check_emergency lanes = None -> _check_max_wait lanes = None ->
  decide now stamp draw lanes = Ok dec ->
  exists lane,
    In (selectedLane dec, lane) lanes /\
    greenDuration dec = _calculate_green_duration lane /\
    DecisionReason.emergency (reasonTrace dec) = false.
Proof.
  intros Hemer Hwait. unfold decide. rewrite Hemer, Hwait. intros H.
  apply bind_ok in H. destruct H as (adjusted & _ & H).
  apply bind_ok in H. destruct H as (probs & _ & H).
  apply bind_ok in H. destruct H as (sel & _ & H).
  apply bind_ok in H. destruct H as (lane & Hlane & H).
  unfold _create_decision in H.
  apply bind_ok in H. destruct H as (l & Hl & H).
  apply bind_ok in H. destruct H as (p & _ & H).
  apply new_SignalDecision_inv in H. subst dec. simpl.
  exists lane. split; [apply dict_get_ok_in; exact Hlane|].
  split; reflexivity.
Qed.



Lemma snapshot_mixed_no_override :
  _check_emergency snapshot_mixed = None /\
  _check_max_wait snapshot_mixed = None.
Proof.
  split; [reflexivity|].
  apply check_max_wait_none.
  repeat constructor; unfold waited_too_long; simpl; lra.
Qed.

(** ** Totality *)



(** C4 (green duration).  Every decision of the scoring path (no emergency,
    no max-wait breach) carries, for the state [lane] of its selected lane,
    the duration
    [clamp(confidence * (5 + (60 - 5) * min(localScore/50, 1)), 5, 60)],
    which lies between 5 and 60. *)
Theorem green_duration_allocation (now stamp : R) (draw : nat)
    (lanes : dict LaneState) (dec : SignalDecision) :
  _check_emergency lanes = None ->
  _check_max_wait lanes = None ->
  decide now stamp draw lanes = Ok dec ->
  exists lane,
    In (selectedLane dec, lane) lanes /\
    greenDuration dec
    = clamp (confidenceScore (vision lane)
             * (5 + (60 - 5)
                    * Rmin (_calculate_local_traffic_score lane / 50) 1))
        5 60 /\
    5 <= greenDuration dec <= 60.
Proof.
  intros Hemer Hwait Hdec.
  destruct (scoring_path_inv now stamp draw lanes dec Hemer Hwait Hdec)
    as (lane & Hin & Hdur & _).
  exists lane. split; [exact Hin|]. rewrite Hdur.
  split; [exact (green_duration_clamped lane)|].
  exact (green_duration_bounds lane).
Qed.

Lemma green_duration_allocation_witness :
  exists dec,
    decide 1000 1001 1 snapshot_mixed = Ok dec /\
    5 <= greenDuration dec <= 60.
Proof.
  destruct (decide_returns 1000 1001 1 snapshot_mixed snapshot_mixed_is_dict)
    as (dec & Hdec); [simpl; lia|].
  exists dec. split; [exact Hdec|].
  destruct snapshot_mixed_no_override as (Hemer & Hwait).
  destruct (green_duration_allocation 1000 1001 1 snapshot_mixed dec
              Hemer Hwait Hdec) as (lane & _ & _ & Hb).
  exact Hb.
Defined.

(** ** Emergency counts *)




(** ** More on the softmax: what the distribution looks like *)

Lemma combine_keys_map {A B : Type} (g : A -> B) (d : dict A) :
  combine (keys d) (map g (values d))
  = map (fun item => (fst item, g (snd item))) d.
Proof.
  unfold keys, values.
  induction d as [|[k v] r IH]; simpl; [reflexivity|]. now rewrite IH.
Qed.








Lemma softmax_map_form (priorities : dict R) (t : R) :
  is_dict priorities -> priorities <> [] ->
  exists m total : R,
    0 < total /\
    _softmax priorities t
    = Ok (map (fun item =>
                 (fst item, exp ((snd item + 1e-6) / t - m) / total))
            priorities).
Proof.
  intros Hd Hne.
  rewrite (softmax_closed priorities t Hd Hne).
  unfold softmax_values.
  destruct (map (fun v => v / t) (map (fun v => v + 1e-6) (values priorities)))
    as [|x s] eqn:Hs.
  { destruct priorities; [congruence|discriminate]. }
  set (m := fold_left Rmax s x).
  set (total := np_sum (map (fun s0 => exp (s0 - m)) (x :: s))).
  exists m, total. split.
  { apply np_sum_pos; [discriminate|apply exp_values_pos]. }
  rewrite <- Hs, !map_map.
  rewrite (combine_keys_map
             (fun v0 => exp ((v0 + 1e-6) / t - m) / total) priorities).
  reflexivity.
Qed.

Lemma np_sum_constant {A : Type} (q : R) (l : list A) :
  np_sum (map (fun _ => q) l) = INR (List.length l) * q.
Proof.
  induction l as [|a r IH]; [simpl; lra|].
  cbn [map np_sum fold_right List.length]. fold (np_sum (map (fun _ => q) r)).
  rewrite IH, S_INR. lra.
Qed.

(** X3.  When all lanes carry the same priority (an empty intersection, for
    one), the softmax is uniform: each of the [n] lanes gets [1 / n]. *)
Theorem softmax_uniform_on_ties (priorities : dict R) (c : R) :
  is_dict priorities -> priorities <> [] ->
  (forall d v, In (d, v) priorities -> v = c) ->
  exists probs,
    _softmax priorities TEMPERATURE = Ok probs /\
    keys probs = keys priorities /\
    forall d p, In (d, p) probs -> p = 1 / INR (List.length priorities).
Proof.
  intros Hd Hne Hall.
  destruct (softmax_run priorities TEMPERATURE Hd Hne)
    as (probs & Hrun & Hkeys & _ & _ & Hsum).
  destruct (softmax_map_form priorities TEMPERATURE Hd Hne)
    as (m & total & Htot & Hform).
  rewrite Hrun in Hform. inversion Hform as [Hprobs]. clear Hform.
  exists probs. split; [exact Hrun|]. split; [exact Hkeys|].
  set (q := exp ((c + 1e-6) / TEMPERATURE - m) / total).
  assert (Hconst : probs = map (fun item => (fst item, q)) priorities).
  { rewrite Hprobs. apply map_ext_in. intros [d v] Hin. simpl.
    rewrite (Hall d v Hin). reflexivity. }
  assert (Hq : INR (List.length priorities) * q = 1).
  { rewrite <- Hsum, Hconst. unfold values. rewrite map_map. simpl.
    symmetry. apply np_sum_constant. }
  assert (Hlen : 0 < INR (List.length priorities)).
  { apply lt_0_INR. destruct priorities; [congruence|simpl; lia]. }
  intros d p Hin. rewrite Hconst in Hin. apply in_map_iff in Hin.
  destruct Hin as (item & Heq & _). inversion Heq; subst p.
  apply Rmult_eq_reg_l with (r := INR (List.length priorities)); [|lra].
  rewrite Hq. field. lra.
Qed.

Lemma softmax_uniform_on_ties_witness :
  exists probs,
    _softmax (priorities_level 0) TEMPERATURE = Ok probs /\
    keys probs = [North; South; East; West] /\
    forall d p, In (d, p) probs -> p = 1 / 4.
Proof.
  destruct (softmax_uniform_on_ties (priorities_level 0) 0)
    as (probs & Hrun & Hkeys & Hall).
  - unfold is_dict, priorities_level, keys. simpl.
    repeat constructor; simpl; intuition discriminate.
  - discriminate.
  - intros d v Hin. simpl in Hin.
    repeat (destruct Hin as [Hin|Hin]; [inversion Hin; reflexivity|]).
    contradiction.
  - exists probs. split; [exact Hrun|]. split; [exact Hkeys|].
    intros d p Hin. rewrite (Hall d p Hin). simpl. lra.
Defined.





(** ** What every decision satisfies, and when [decide] raises *)

Lemma new_SignalDecision_checked (lane : LaneDirection)
    (duration confidence : R) (reason : DecisionReason.t) (stamp : R)
    (dec : SignalDecision) :
  new_SignalDecision lane duration confidence reason stamp = Ok dec ->
  5 <= duration <= 120 /\ 0 <= confidence <= 1.
Proof.
  unfold new_SignalDecision.
  destruct (Rle_dec 5 duration); [|discriminate].
  destruct (Rle_dec duration 120); [|discriminate].
  destruct (Rle_dec 0 confidence); [|discriminate].
  destruct (Rle_dec confidence 1); [|discriminate].
  intros _. lra.
Qed.

Lemma in_keys {V : Type} (d : dict V) (k : LaneDirection) (v : V) :
  In (k, v) d -> In k (keys d).
Proof.
  intros Hin. unfold keys. apply in_map_iff.
  exists (k, v). split; [reflexivity|exact Hin].
Qed.

Lemma decide_ok_contract (now stamp : R) (draw : nat)
    (lanes : dict LaneState) (dec : SignalDecision) :
  decide now stamp draw lanes = Ok dec ->
  In (selectedLane dec) (keys lanes) /\
  5 <= greenDuration dec <= 60 /\
  0 <= decisionConfidence dec <= 1 /\
  timestamp dec = stamp.
Proof.
  unfold decide.
  destruct (_check_emergency lanes) as [d|] eqn:Hemer.
  - unfold _create_emergency_decision. intros H.
    apply new_SignalDecision_inv in H. subst dec. simpl.
    split; [exact (check_emergency_key lanes d Hemer)|].
    unfold MAX_GREEN. repeat split; lra.
  - destruct (_check_max_wait lanes) as [d|] eqn:Hwait.
    + unfold _create_forced_decision. intros H.
      apply bind_ok in H. destruct H as (l & _ & H).
      apply new_SignalDecision_inv in H. subst dec. simpl.
      split; [exact (check_max_wait_key lanes d Hwait)|].
      unfold MIN_GREEN. repeat split; lra.
    + intros H.
      apply bind_ok in H. destruct H as (adjusted & _ & H).
      apply bind_ok in H. destruct H as (probs & _ & H).
      apply bind_ok in H. destruct H as (sel & _ & H).
      apply bind_ok in H. destruct H as (lane & Hlane & H).
      unfold _create_decision in H.
      apply bind_ok in H. destruct H as (l & _ & H).
      apply bind_ok in H. destruct H as (p & _ & H).
      pose proof (new_SignalDecision_checked _ _ _ _ _ _ H) as (_ & Hp).
      apply new_SignalDecision_inv in H. subst dec. simpl.
      split; [exact (in_keys lanes sel lane (dict_get_ok_in _ _ _ Hlane))|].
      split; [exact (green_duration_bounds lane)|].
      split; [exact Hp|reflexivity].
Qed.

(** X5.  Whatever path produced it, a decision returned by [decide] names a
    lane of the snapshot, lasts between 5 and 60 seconds (never the 120 the
    [SignalDecision] contract would admit), has a confidence in [0, 1] and
    carries the clock reading it was built with. *)
Theorem decide_output_contract (now stamp : R) (draw : nat)
    (lanes : dict LaneState) (dec : SignalDecision) :
  decide now stamp draw lanes = Ok dec ->
  In (selectedLane dec) (keys lanes) /\
  5 <= greenDuration dec <= 60 /\
  0 <= decisionConfidence dec <= 1 /\
  timestamp dec = stamp.
Proof.
  intros Hdec. apply (decide_ok_contract now stamp draw lanes dec). exact Hdec.
Qed.

Lemma decide_output_contract_witness :
  exists dec,
    decide 1000 1001 3 snapshot_mixed = Ok dec /\
    In (selectedLane dec) [North; South; East; West] /\
    5 <= greenDuration dec <= 60.
Proof.
  destruct (decide_returns 1000 1001 3 snapshot_mixed snapshot_mixed_is_dict)
    as (dec & Hdec); [simpl; lia|].
  exists dec. split; [exact Hdec|].
  destruct (decide_output_contract 1000 1001 3 snapshot_mixed dec Hdec)
    as (Hin & Hdur & _).
  split; [exact Hin|exact Hdur].
Defined.



(** ** More on the green duration *)

Lemma Rmin_mono_l (a b c : R) : a <= b -> Rmin a c <= Rmin b c.
Proof.
  intros H. unfold Rmin.
  destruct (Rle_dec a c); destruct (Rle_dec b c); lra.
Qed.

Lemma Rmin_mono_r (a b c : R) : a <= b -> Rmin c a <= Rmin c b.
Proof.
  intros H. unfold Rmin.
  destruct (Rle_dec c a); destruct (Rle_dec c b); lra.
Qed.

Lemma Rmax_mono_r (a b c : R) : a <= b -> Rmax c a <= Rmax c b.
Proof.
  intros H. unfold Rmax.
  destruct (Rle_dec c a); destruct (Rle_dec c b); lra.
Qed.

Lemma green_duration_unfold (lane : LaneState) :
  _calculate_green_duration lane
  = Rmax 5 (Rmin 60
      ((5 + 55 * Rmin (_calculate_local_traffic_score lane / 50) 1)
       * confidenceScore (vision lane))).
Proof.
  rewrite green_duration_clamped. unfold spec_green_duration, clamp.
  do 2 f_equal. ring.
Qed.

(** X7.  Between two lanes with the same non-negative detection confidence,
    the one with the higher local score never gets the shorter green. *)
Theorem green_duration_monotone_in_score (l1 l2 : LaneState) :
  confidenceScore (vision l1) = confidenceScore (vision l2) ->
  0 <= confidenceScore (vision l1) ->
  _calculate_local_traffic_score l1 <= _calculate_local_traffic_score l2 ->
  _calculate_green_duration l1 <= _calculate_green_duration l2.
Proof.
  intros Hc Hpos Hs. rewrite !green_duration_unfold, <- Hc.
  apply Rmax_mono_r, Rmin_mono_r.
  assert (Hn : Rmin (_calculate_local_traffic_score l1 / 50) 1
               <= Rmin (_calculate_local_traffic_score l2 / 50) 1)
    by (apply Rmin_mono_l; lra).
  nra.
Qed.

Lemma green_duration_monotone_in_score_witness :
  _calculate_green_duration (quiet_lane West)
  <= _calculate_green_duration lane_fifty_cars.
Proof.
  apply (green_duration_monotone_in_score (quiet_lane West) lane_fifty_cars).
  - reflexivity.
  - simpl. lra.
  - rewrite !local_score_unfold.
    unfold spec_local_score, spec_weighted_sum, speed_factor. simpl.
    unfold Rmax.
    destruct (Rle_dec 0 (1 - 40 / 60)); destruct (Rle_dec 0 (1 - 60 / 60)); lra.
Defined.

(** X8.  The green duration falls to [MIN_GREEN] = 5 whenever the lane's
    score is 0 (an empty lane) and the confidence is in [0, 1], and also, for
    any traffic, whenever the confidence is at most 1/12. *)
Theorem green_duration_floor (lane : LaneState) :
  0 <= confidenceScore (vision lane) <= 1 ->
  (_calculate_local_traffic_score lane = 0 ->
   _calculate_green_duration lane = 5) /\
  (confidenceScore (vision lane) <= 1 / 12 ->
   _calculate_green_duration lane = 5).
Proof.
  intros Hc. rewrite green_duration_unfold.
  set (s := _calculate_local_traffic_score lane).
  set (c := confidenceScore (vision lane)) in *.
  assert (Hn : Rmin (s / 50) 1 <= 1) by apply Rmin_r.
  split.
  - intros Hs. rewrite Hs. unfold Rmin, Rmax.
    destruct (Rle_dec (0 / 50) 1); [|lra].
    destruct (Rle_dec 60 ((5 + 55 * (0 / 50)) * c)); [lra|].
    destruct (Rle_dec 5 ((5 + 55 * (0 / 50)) * c)); lra.
  - intros Hlow.
    assert (Hd : (5 + 55 * Rmin (s / 50) 1) * c <= 5) by nra.
    unfold Rmax.
    destruct (Rle_dec 5 (Rmin 60 ((5 + 55 * Rmin (s / 50) 1) * c)))
      as [Hle|_]; [|reflexivity].
    pose proof (Rmin_r 60 ((5 + 55 * Rmin (s / 50) 1) * c)). lra.
Qed.

Lemma green_duration_floor_witness :
  _calculate_green_duration (quiet_lane North) = 5 /\
  _calculate_green_duration (with_confidence (1 / 12) lane_fifty_cars) = 5.
Proof.
  split.
  - destruct (green_duration_floor (quiet_lane North)) as (H & _).
    + simpl. lra.
    + apply H. rewrite local_score_unfold.
      unfold spec_local_score, spec_weighted_sum. simpl. lra.
  - destruct (green_duration_floor (with_confidence (1 / 12) lane_fifty_cars))
      as (_ & H).
    + simpl. lra.
    + apply H. simpl. lra.
Defined.

(** X9.  For a confidence [c] in [0, 1] the green duration is at most
    [max(5, 60 * c)], and it reaches [MAX_GREEN] = 60 exactly when the
    confidence is 1 and the local score is at least 50. *)
Theorem green_duration_ceiling (lane : LaneState) :
  0 <= confidenceScore (vision lane) <= 1 ->
  _calculate_green_duration lane
  <= Rmax 5 (60 * confidenceScore (vision lane)) /\
  (_calculate_green_duration lane = 60 <->
   confidenceScore (vision lane) = 1 /\
   50 <= _calculate_local_traffic_score lane).
Proof.
  intros Hc. rewrite green_duration_unfold.
  set (s := _calculate_local_traffic_score lane).
  set (c := confidenceScore (vision lane)) in *.
  pose proof (Rmin_r (s / 50) 1) as Hn1.
  pose proof (Rmin_l (s / 50) 1) as Hn2.
  set (n := Rmin (s / 50) 1) in *.
  pose proof (Rmin_r 60 ((5 + 55 * n) * c)) as Hm.
  split.
  - apply Rmax_lub; [apply Rmax_l|].
    eapply Rle_trans; [exact Hm|].
    eapply Rle_trans; [|apply Rmax_r]. nra.
  - split.
    + intros Hmax.
      assert (Hd : 60 <= (5 + 55 * n) * c).
      { unfold Rmax in Hmax.
        destruct (Rle_dec 5 (Rmin 60 ((5 + 55 * n) * c))); lra. }
      assert (Hc1 : c = 1) by nra.
      split; [exact Hc1|]. rewrite Hc1 in Hd.
      assert (Hn : n = 1) by lra. lra.
    + intros (Hc1 & Hs). rewrite Hc1.
      assert (Hn : n = 1).
      { unfold n, Rmin. destruct (Rle_dec (s / 50) 1); lra. }
      rewrite Hn. unfold Rmin, Rmax.
      destruct (Rle_dec 60 ((5 + 55 * 1) * 1)); [|lra].
      destruct (Rle_dec 5 60); lra.
Qed.

Lemma green_duration_ceiling_witness :
  _calculate_green_duration lane_fifty_cars <= 57 /\
  _calculate_green_duration (with_confidence 1 lane_fifty_cars) = 60.
Proof.
  split.
  - destruct (green_duration_ceiling lane_fifty_cars) as (H & _).
    + simpl. lra.
    + eapply Rle_trans; [exact H|]. simpl. unfold Rmax.
      destruct (Rle_dec 5 (60 * 0.95)); lra.
  - destruct (green_duration_ceiling (with_confidence 1 lane_fifty_cars))
      as (_ & H).
    + simpl. lra.
    + apply H. split; [reflexivity|].
      rewrite local_score_unfold.
      unfold spec_local_score, spec_weighted_sum, speed_factor. simpl.
      unfold Rmax. destruct (Rle_dec 0 (1 - 60 / 60)); lra.
Defined.

(** ** More on the scores and priorities *)

Lemma speed_factor_le_one (lane : LaneState) :
  0 <= avgSpeed (vision lane) -> speed_factor lane <= 1.
Proof.
  intros H. unfold speed_factor, Rmax.
  destruct (Rle_dec 0 (1 - avgSpeed (vision lane) / 60)); lra.
Qed.

(** X10.  On a range-valid lane with non-negative counts, speed and
    occupancy can only inflate the weighted vehicle sum, and by a factor of
    at most 4. *)
Theorem local_score_between_sum_and_fourfold (lane : LaneState) :
  valid_VisionOutput (vision lane) ->
  counts_nonneg (vehicleCountByType (vision lane)) ->
  spec_weighted_sum lane <= _calculate_local_traffic_score lane /\
  _calculate_local_traffic_score lane <= 4 * spec_weighted_sum lane.
Proof.
  intros (Hspeed & Hocc & _) Hcounts.
  rewrite local_score_unfold. unfold spec_local_score.
  pose proof (weighted_sum_nonneg lane Hcounts) as Hw.
  pose proof (speed_factor_nonneg lane) as Hs0.
  pose proof (speed_factor_le_one lane (proj1 Hspeed)) as Hs1.
  set (w := spec_weighted_sum lane) in *.
  set (f := speed_factor lane) in *.
  set (o := laneOccupancy (vision lane)) in *.
  assert (Hwf : w <= w * (1 + f)) by nra.
  assert (Hwf2 : w * (1 + f) <= 2 * w) by nra.
  split; nra.
Qed.

Lemma local_score_between_sum_and_fourfold_witness :
  3 <= _calculate_local_traffic_score lane_ten_bikes_jammed <= 12.
Proof.
  destruct (local_score_between_sum_and_fourfold lane_ten_bikes_jammed)
    as (Hlo & Hhi).
  - unfold valid_VisionOutput; simpl; lra.
  - unfold counts_nonneg; simpl; lia.
  - unfold spec_weighted_sum in Hlo, Hhi. simpl in Hlo, Hhi. lra.
Defined.

Lemma with_speed_score (v : R) (lane : LaneState) :
  _calculate_local_traffic_score (with_speed v lane)
  = spec_weighted_sum lane * (1 + Rmax 0 (1 - v / 60))
    * (1 + laneOccupancy (vision lane)).
Proof.
  rewrite local_score_unfold. reflexivity.
Qed.

(** X11.  With non-negative counts and occupancy, a lower average speed
    never lowers the local score, and all speeds from 60 upwards give the
    same score. *)
Theorem local_score_in_speed (lane : LaneState) (v1 v2 : R) :
  counts_nonneg (vehicleCountByType (vision lane)) ->
  0 <= laneOccupancy (vision lane) ->
  v1 <= v2 ->
  _calculate_local_traffic_score (with_speed v2 lane)
  <= _calculate_local_traffic_score (with_speed v1 lane) /\
  (60 <= v1 ->
   _calculate_local_traffic_score (with_speed v2 lane)
   = _calculate_local_traffic_score (with_speed v1 lane)).
Proof.
  intros Hcounts Hocc Hv. rewrite !with_speed_score.
  pose proof (weighted_sum_nonneg lane Hcounts) as Hw.
  set (w := spec_weighted_sum lane) in *.
  set (o := laneOccupancy (vision lane)) in *.
  assert (Hf : Rmax 0 (1 - v2 / 60) <= Rmax 0 (1 - v1 / 60))
    by (apply Rmax_mono_r; lra).
  pose proof (Rmax_l 0 (1 - v2 / 60)) as H2.
  split.
  - apply Rmult_le_compat_r; [lra|]. nra.
  - intros Hfast. unfold Rmax.
    destruct (Rle_dec 0 (1 - v2 / 60)); destruct (Rle_dec 0 (1 - v1 / 60));
      try lra.
    + assert (v2 = 60) by lra. assert (v1 = 60) by lra. subst. reflexivity.
    + assert (v1 = 60) by lra. subst. lra.
Qed.

Lemma local_score_in_speed_witness :
  _calculate_local_traffic_score (with_speed 50 lane_ten_bikes_jammed)
  <= _calculate_local_traffic_score (with_speed 10 lane_ten_bikes_jammed) /\
  _calculate_local_traffic_score (with_speed 100 lane_ten_bikes_jammed)
  = _calculate_local_traffic_score (with_speed 60 lane_ten_bikes_jammed).
Proof.
  assert (Hc : counts_nonneg
                 (vehicleCountByType (vision lane_ten_bikes_jammed)))
    by (unfold counts_nonneg; simpl; lia).
  assert (Ho : 0 <= laneOccupancy (vision lane_ten_bikes_jammed))
    by (simpl; lra).
  split.
  - apply (local_score_in_speed lane_ten_bikes_jammed 10 50 Hc Ho). lra.
  - destruct (local_score_in_speed lane_ten_bikes_jammed 60 100 Hc Ho)
      as (_ & H); [lra|]. apply H. lra.
Defined.

Lemma net_priorities_get (lanes : dict LaneState) (d : LaneDirection)
    (lane : LaneState) :
  is_dict lanes -> In (d, lane) lanes ->
  dict_get d (_calculate_net_priorities lanes) = Ok (net_priority lane).
Proof.
  intros Hd Hin. rewrite (net_priorities_closed lanes Hd).
  apply dict_get_in.
  - unfold is_dict. rewrite keys_map_snd. exact Hd.
  - apply in_map_iff. exists (d, lane). split; [reflexivity|exact Hin].
Qed.

(** X12.  For a range-valid lane of a well-formed snapshot, the net priority
    stored by [_calculate_net_priorities] is the local score itself without
    downstream data, and with downstream data it stays between 1% of the
    local score (gridlock downstream) and 25/9 of it (100 km/h
    downstream). *)
Theorem net_priority_band (lanes : dict LaneState) (d : LaneDirection)
    (lane : LaneState) :
  is_dict lanes -> In (d, lane) lanes ->
  valid_LaneState lane ->
  counts_nonneg (vehicleCountByType (vision lane)) ->
  exists net,
    dict_get d (_calculate_net_priorities lanes) = Ok net /\
    0.01 * _calculate_local_traffic_score lane <= net /\
    net <= 25 / 9 * _calculate_local_traffic_score lane /\
    (downstream lane = None -> net = _calculate_local_traffic_score lane).
Proof.
  intros Hd Hin (Hvis & Hdown) Hcounts.
  exists (net_priority lane).
  split; [exact (net_priorities_get lanes d lane Hd Hin)|].
  pose proof (local_score_nonneg lane Hvis Hcounts) as Hs.
  unfold net_priority.
  set (s := _calculate_local_traffic_score lane) in *.
  destruct (downstream lane) as [dd|] eqn:Hdd.
  - rewrite (downstream_priority_some lane dd Hdd).
    destruct Hdown as ((Hlo & Hhi) & _).
    assert (Hf : 0.1 <= Rmax 0.1 (DownstreamData.avgSpeed dd / 60) <= 100 / 60).
    { unfold Rmax.
      destruct (Rle_dec 0.1 (DownstreamData.avgSpeed dd / 60)); lra. }
    set (f := Rmax 0.1 (DownstreamData.avgSpeed dd / 60)) in *.
    assert (Hf2 : 0.01 <= f ^ 2 <= 25 / 9) by (simpl; nra).
    split; [nra|]. split; [nra|]. discriminate.
  - rewrite (downstream_priority_none lane Hdd).
    split; [simpl; nra|]. split; [simpl; nra|]. intros _. simpl. ring.
Qed.

Lemma net_priority_band_witness :
  exists net,
    dict_get South (_calculate_net_priorities snapshot_mixed) = Ok net /\
    0.01 * _calculate_local_traffic_score mixed_south <= net /\
    net <= 25 / 9 * _calculate_local_traffic_score mixed_south.
Proof.
  destruct (net_priority_band snapshot_mixed South mixed_south
              snapshot_mixed_is_dict) as (net & Hget & Hlo & Hhi & _).
  - simpl. auto.
  - unfold valid_LaneState, valid_VisionOutput, valid_DownstreamData.
    simpl. lra.
  - unfold counts_nonneg. simpl. lia.
  - exists net. repeat split; assumption.
Defined.

Lemma adjusted_priorities_get (now : R) (lanes : dict LaneState)
    (d : LaneDirection) (lane : LaneState) :
  is_dict lanes -> In (d, lane) lanes ->
  dict_get d (adjusted_priorities now lanes)
  = Ok (net_priority lane * decay_factor now lane).
Proof.
  intros Hd Hin. apply dict_get_in.
  - exact (adjusted_is_dict now lanes Hd).
  - unfold adjusted_priorities. apply in_map_iff.
    exists (d, lane). split; [reflexivity|exact Hin].
Qed.

(** X13.  The decay step has no floor at 0.  For a lane with a positive
    net priority, a last-green time at or before the clock leaves the
    adjusted priority between 0 and the net priority, while a last-green
    time later than the clock makes the adjusted priority negative. *)
Theorem recent_green_decay_sign (now : R) (lanes : dict LaneState)
    (d : LaneDirection) (lane : LaneState) :
  is_dict lanes -> In (d, lane) lanes ->
  exists net adjusted adj,
    dict_get d (_calculate_net_priorities lanes) = Ok net /\
    _apply_recent_green_decay now lanes (_calculate_net_priorities lanes)
    = Ok adjusted /\
    dict_get d adjusted = Ok adj /\
    (0 < net -> lastGreenTime lane <= now -> 0 <= adj <= net) /\
    (0 < net -> now < lastGreenTime lane -> adj < 0).
Proof.
  intros Hd Hin.
  exists (net_priority lane), (adjusted_priorities now lanes),
    (net_priority lane * decay_factor now lane).
  split; [exact (net_priorities_get lanes d lane Hd Hin)|].
  split; [exact (recent_green_decay_closed now lanes Hd)|].
  split; [exact (adjusted_priorities_get now lanes d lane Hd Hin)|].
  unfold decay_factor, RECENT_GREEN_DECAY_WINDOW.
  set (n := net_priority lane).
  split; intros Hn Ht;
    destruct (Rlt_dec (now - lastGreenTime lane) 30.0); nra.
Qed.

Lemma recent_green_decay_sign_witness :
  exists adjusted adj,
    _apply_recent_green_decay 1000 snapshot_future_green
      (_calculate_net_priorities snapshot_future_green) = Ok adjusted /\
    dict_get North adjusted = Ok adj /\ adj < 0.
Proof.
  destruct (recent_green_decay_sign 1000 snapshot_future_green North
              lane_future_green)
    as (net & adjusted & adj & Hnet & Hrun & Hget & _ & Hneg).
  - unfold is_dict, snapshot_future_green, keys. simpl.
    repeat constructor; simpl; intuition discriminate.
  - simpl. auto.
  - exists adjusted, adj. split; [exact Hrun|]. split; [exact Hget|].
    apply Hneg; [|simpl; lra].
    rewrite (net_priorities_get snapshot_future_green North
               lane_future_green) in Hnet.
    + inversion Hnet as [Heq]. unfold net_priority.
      rewrite local_score_unfold,
        (downstream_priority_none lane_future_green eq_refl).
      unfold spec_local_score, spec_weighted_sum, speed_factor. simpl.
      unfold Rmax. destruct (Rle_dec 0 (1 - 0 / 60)); lra.
    + unfold is_dict, snapshot_future_green, keys. simpl.
      repeat constructor; simpl; intuition discriminate.
    + simpl. auto.
Defined.

(** ** The fallback decision of main.py *)

Lemma fallback_first (stamp : R) (snapshot : dict LaneState) :
  Exists has_motor_vehicles snapshot ->
  exists pre d lane post,
    first_match has_motor_vehicles snapshot pre d lane post /\
    _create_fallback_decision stamp snapshot
    = Ok {| selectedLane := d;
            greenDuration := 15.0;
            decisionConfidence := 0.5;
            reasonTrace :=
              {| DecisionReason.emergency := false;
                 DecisionReason.maxWaitViolation := false;
                 DecisionReason.downstreamPenalty := 0.0;
                 DecisionReason.recentGreenDecay := 1.0;
                 DecisionReason.softmaxProbability := 0.5;
                 DecisionReason.localTrafficScore :=
                   IZR (car (vehicleCountByType (vision lane))
                        + truck (vehicleCountByType (vision lane))
                        + bus (vehicleCountByType (vision lane))) |};
            timestamp := stamp |}.
Proof.
  induction snapshot as [|[d l] r IH]; intros Hex; [inversion Hex|].
  cbn [_create_fallback_decision].
  destruct (car (vehicleCountByType (vision l))
            + truck (vehicleCountByType (vision l))
            + bus (vehicleCountByType (vision l)) >? 0)%Z eqn:Hgt.
  - exists [], d, l, r. split.
    + repeat split; auto. unfold has_motor_vehicles. simpl. lia.
    + apply new_SignalDecision_ok; lra.
  - assert (Hr : Exists has_motor_vehicles r).
    { inversion Hex as [? ? Hh|? ? Hh]; subst; [|exact Hh].
      unfold has_motor_vehicles in Hh; simpl in Hh. lia. }
    destruct (IH Hr) as (pre & d' & l' & post & (Heq & Hpre & Hp) & Hrun).
    exists ((d, l) :: pre), d', l', post. split; [|exact Hrun].
    repeat split.
    + simpl. now rewrite Heq.
    + constructor; [|exact Hpre]. unfold has_motor_vehicles. simpl. lia.
    + exact Hp.
Qed.

Lemma fallback_default (stamp : R) (snapshot : dict LaneState) :
  Forall (fun item => ~ has_motor_vehicles item) snapshot ->
  _create_fallback_decision stamp snapshot
  = Ok {| selectedLane := North;
          greenDuration := 10.0;
          decisionConfidence := 0.5;
          reasonTrace :=
            {| DecisionReason.emergency := false;
               DecisionReason.maxWaitViolation := false;
               DecisionReason.downstreamPenalty := 0.0;
               DecisionReason.recentGreenDecay := 1.0;
               DecisionReason.softmaxProbability := 0.25;
               DecisionReason.localTrafficScore := 0.0 |};
          timestamp := stamp |}.
Proof.
  induction 1 as [|[d l] r Hx _ IH]; cbn [_create_fallback_decision].
  - apply new_SignalDecision_ok; lra.
  - unfold has_motor_vehicles in Hx. simpl in Hx.
    destruct (car (vehicleCountByType (vision l))
              + truck (vehicleCountByType (vision l))
              + bus (vehicleCountByType (vision l)) >? 0)%Z eqn:Hgt; [lia|].
    exact IH.
Qed.

Lemma has_motor_vehicles_dec (snapshot : dict LaneState) :
  Exists has_motor_vehicles snapshot \/
  Forall (fun item => ~ has_motor_vehicles item) snapshot.
Proof.
  induction snapshot as [|item r IH].
  - right. constructor.
  - destruct (Z_gt_dec (car (vehicleCountByType (vision (snd item)))
                        + truck (vehicleCountByType (vision (snd item)))
                        + bus (vehicleCountByType (vision (snd item)))) 0)
      as [Hgt|Hle].
    + left. apply Exists_cons_hd. exact Hgt.
    + destruct IH as [IH|IH].
      * left. apply Exists_cons_tl. exact IH.
      * right. constructor; assumption.
Qed.

Lemma fallback_returns (stamp : R) (snapshot : dict LaneState) :
  exists dec,
    _create_fallback_decision stamp snapshot = Ok dec /\
    (greenDuration dec = 15 \/ greenDuration dec = 10).
Proof.
  destruct (has_motor_vehicles_dec snapshot) as [Hex|Hno].
  - destruct (fallback_first stamp snapshot Hex)
      as (pre & d & lane & post & _ & Hrun).
    eexists. split; [exact Hrun|]. left. simpl. lra.
  - eexists. split; [exact (fallback_default stamp snapshot Hno)|].
    right. simpl. lra.
Qed.

(** X14.  When some lane holds a car, truck or bus, the fallback serves the
    first such lane of the snapshot for 15 seconds with confidence 0.5 and
    reports the number of those vehicles as the local score. *)
Theorem fallback_serves_first_motor_lane (stamp : R)
    (snapshot : dict LaneState) :
  Exists has_motor_vehicles snapshot ->
  exists pre d lane post dec,
    first_match has_motor_vehicles snapshot pre d lane post /\
    _create_fallback_decision stamp snapshot = Ok dec /\
    selectedLane dec = d /\
    greenDuration dec = 15 /\
    decisionConfidence dec = 0.5 /\
    DecisionReason.localTrafficScore (reasonTrace dec)
    = IZR (car (vehicleCountByType (vision lane))
           + truck (vehicleCountByType (vision lane))
           + bus (vehicleCountByType (vision lane))).
Proof.
  intros Hex.
  destruct (fallback_first stamp snapshot Hex)
    as (pre & d & lane & post & Hfirst & Hrun).
  exists pre, d, lane, post. eexists.
  split; [exact Hfirst|]. split; [exact Hrun|].
  simpl. repeat split; lra.
Qed.

Lemma fallback_serves_first_motor_lane_witness :
  exists dec,
    _create_fallback_decision 7 snapshot_mixed = Ok dec /\
    selectedLane dec = North /\ greenDuration dec = 15 /\
    DecisionReason.localTrafficScore (reasonTrace dec) = 20.
Proof.
  assert (Hex : Exists has_motor_vehicles snapshot_mixed).
  { apply Exists_cons_hd. unfold has_motor_vehicles. simpl. lia. }
  destruct (fallback_serves_first_motor_lane 7 snapshot_mixed Hex)
    as (pre & d & lane & post & dec & (Heq & Hpre & Hp) & Hrun & Hsel
        & Hdur & _ & Hscore).
  exists dec. split; [exact Hrun|].
  destruct pre as [|p0 pre].
  - inversion Heq; subst. split; [congruence|]. split; [exact Hdur|].
    rewrite Hscore. simpl. lra.
  - inversion Heq; subst. inversion Hpre as [|? ? Hno _]; subst.
    exfalso. apply Hno. unfold has_motor_vehicles. simpl. lia.
Defined.

(** X15.  When no lane holds a car, truck or bus, the fallback names North
    for 10 seconds with confidence 0.5, whatever else the lanes report
    (bikes, pedestrians, emergency vehicles, a detected ambulance, a long
    wait) and whether or not North is a lane of the snapshot. *)
Theorem fallback_defaults_to_north (stamp : R) (snapshot : dict LaneState) :
  Forall (fun item => ~ has_motor_vehicles item) snapshot ->
  exists dec,
    _create_fallback_decision stamp snapshot = Ok dec /\
    selectedLane dec = North /\
    greenDuration dec = 10 /\
    decisionConfidence dec = 0.5 /\
    DecisionReason.softmaxProbability (reasonTrace dec) = 0.25.
Proof.
  intros Hno. eexists.
  split; [exact (fallback_default stamp snapshot Hno)|].
  simpl. repeat split; lra.
Qed.

Lemma fallback_defaults_to_north_witness :
  ~ In North (keys snapshot_south_only) /\
  Exists has_ambulance snapshot_south_only /\
  exists dec,
    _create_fallback_decision 7 snapshot_south_only = Ok dec /\
    selectedLane dec = North /\ greenDuration dec = 10.
Proof.
  split; [simpl; intuition discriminate|].
  split; [apply Exists_cons_hd; reflexivity|].
  destruct (fallback_defaults_to_north 7 snapshot_south_only)
    as (dec & Hrun & Hsel & Hdur & _).
  - repeat constructor. unfold has_motor_vehicles. simpl. lia.
  - exists dec. repeat split; assumption.
Defined.

(** ** The endpoint of main.py *)

Lemma with_downstream_agree (a b : LaneState) :
  with_downstream None a = with_downstream None b ->
  vision a = vision b /\
  forall x, with_downstream x a = with_downstream x b.
Proof.
  unfold with_downstream. intros H. injection H as Hd Hv Hw Hl.
  split; [exact Hv|]. intros x. now rewrite Hd, Hv, Hw, Hl.
Qed.

Lemma same_up_to_downstream_refl (l : dict LaneState) :
  same_up_to_downstream l l.
Proof.
  induction l as [|item r IH]; constructor; auto.
Qed.

Lemma fallback_same (stamp : R) (l1 l2 : dict LaneState) :
  same_up_to_downstream l1 l2 ->
  _create_fallback_decision stamp l1 = _create_fallback_decision stamp l2.
Proof.
  induction 1 as [|[d1 a] [d2 b] r1 r2 (Hk & Hv) _ IH]; [reflexivity|].
  simpl in Hk, Hv. subst d2.
  destruct (with_downstream_agree a b Hv) as (Hvis & _).
  cbn [_create_fallback_decision]. rewrite Hvis, IH. reflexivity.
Qed.

Lemma enrich_same (adapter : LaneDirection -> result DownstreamData.t)
    (l1 l2 : dict LaneState) :
  same_up_to_downstream l1 l2 ->
  snd (enrich_lanes adapter l1) = snd (enrich_lanes adapter l2) /\
  same_up_to_downstream (fst (enrich_lanes adapter l1))
    (fst (enrich_lanes adapter l2)) /\
  (snd (enrich_lanes adapter l1) = Ok tt ->
   fst (enrich_lanes adapter l1) = fst (enrich_lanes adapter l2)).
Proof.
  induction 1 as [|[d1 a] [d2 b] r1 r2 (Hk & Hv) Hrest IH].
  - simpl. repeat split; constructor.
  - simpl in Hk, Hv. subst d2.
    destruct (with_downstream_agree a b Hv) as (_ & Hall).
    cbn [enrich_lanes]. destruct (adapter d1) as [data|e].
    + destruct (enrich_lanes adapter r1) as [e1 q1].
      destruct (enrich_lanes adapter r2) as [e2 q2].
      simpl in IH. destruct IH as (Hq & Hsame & Heq). simpl.
      split; [exact Hq|]. split.
      * constructor; [|exact Hsame]. simpl. split; [reflexivity|].
        now rewrite (Hall (Some data)).
      * intros Hok. rewrite (Heq Hok), (Hall (Some data)). reflexivity.
    + simpl. split; [reflexivity|]. split.
      * constructor; [|exact Hrest]. simpl. auto.
      * discriminate.
Qed.

Lemma enrich_keeps_rest (adapter : LaneDirection -> result DownstreamData.t)
    (l : dict LaneState) :
  same_up_to_downstream l (fst (enrich_lanes adapter l)).
Proof.
  induction l as [|[d a] r IH]; [constructor|].
  cbn [enrich_lanes]. destruct (adapter d) as [data|e].
  - destruct (enrich_lanes adapter r) as [e1 q1]. simpl in *.
    constructor; [|exact IH]. simpl. auto.
  - simpl. apply same_up_to_downstream_refl.
Qed.


Lemma enrich_fails (adapter : LaneDirection -> result DownstreamData.t)
    (l : dict LaneState) :
  Exists (fun item => exists e, adapter (fst item) = Raise e) l ->
  exists e, snd (enrich_lanes adapter l) = Raise e.
Proof.
  induction l as [|[d a] r IH]; intros Hex; [inversion Hex|].
  cbn [enrich_lanes]. destruct (adapter d) as [data|e] eqn:Had.
  - assert (Hr : Exists (fun item => exists e, adapter (fst item) = Raise e) r).
    { inversion Hex as [? ? (e & He)|? ? Hh]; subst; [|exact Hh].
      simpl in He. congruence. }
    destruct (IH Hr) as (e & He).
    destruct (enrich_lanes adapter r) as [e1 q1]. simpl in *.
    exists e. exact He.
  - exists e. reflexivity.
Qed.



Lemma same_up_to_downstream_nil (l1 l2 : dict LaneState) :
  same_up_to_downstream l1 l2 -> (l1 = [] <-> l2 = []).
Proof.
  intros H. inversion H; subst; split; congruence.
Qed.

(** X17.  The endpoint ignores the downstream data, the current signal and
    the emergency-mode flag a request carries: two requests in the same mode
    whose lanes agree in everything but [downstream] end the same way. *)
Theorem make_decision_ignores_request_downstream
    (adapter : LaneDirection -> result DownstreamData.t)
    (str_of_exn : exn -> string) (now stamp : R) (draw : nat)
    (fallback_stamp : R) (r1 r2 : DecisionRequest) :
  controlMode r1 = controlMode r2 ->
  same_up_to_downstream (lanes (intersectionState r1))
    (lanes (intersectionState r2)) ->
  make_decision adapter str_of_exn now stamp draw fallback_stamp r1
  = make_decision adapter str_of_exn now stamp draw fallback_stamp r2.
Proof.
  intros Hmode Hsame. unfold make_decision. rewrite Hmode.
  destruct (negb (controlMode r2 =? "ai")%string); [reflexivity|].
  destruct (enrich_same adapter _ _ Hsame) as (Hloop & Hrest & Hfull).
  pose proof (same_up_to_downstream_nil _ _ Hsame) as Hnil.
  destruct (lanes (intersectionState r1)) as [|i1 t1] eqn:H1;
    destruct (lanes (intersectionState r2)) as [|i2 t2] eqn:H2.
  - reflexivity.
  - destruct Hnil as (Hn & _). specialize (Hn eq_refl). discriminate.
  - destruct Hnil as (_ & Hn). specialize (Hn eq_refl). discriminate.
  - destruct (enrich_lanes adapter (i1 :: t1)) as [e1 q1].
    destruct (enrich_lanes adapter (i2 :: t2)) as [e2 q2].
    simpl in Hloop, Hrest, Hfull. subst q2.
    destruct q1 as [[]|e].
    + rewrite (Hfull eq_refl). reflexivity.
    + cbn [bind]. rewrite (fallback_same fallback_stamp e1 e2 Hrest).
      reflexivity.
Qed.

Lemma make_decision_ignores_request_downstream_witness :
  make_decision adapter_fast exn_text 1000 1001 2 1002
    (request_of "ai" [(South, lane_slow_downstream)])
  = make_decision adapter_fast exn_text 1000 1001 2 1002
      (request_of "ai" [(South, quiet_lane South)]).
Proof.
  apply make_decision_ignores_request_downstream.
  - reflexivity.
  - repeat constructor.
Defined.



(** X19.  When the adapter raises for some lane of an "ai" request, the
    engine is not run: the response is flagged as a fallback and holds the
    fallback decision computed from the lanes as the request sent them. *)
Theorem make_decision_falls_back_on_adapter_error
    (adapter : LaneDirection -> result DownstreamData.t)
    (str_of_exn : exn -> string) (now stamp : R) (draw : nat)
    (fallback_stamp : R) (request : DecisionRequest) :
  controlMode request = "ai"%string ->
  Exists (fun item => exists e, adapter (fst item) = Raise e)
    (lanes (intersectionState request)) ->
  exists dec message,
    _create_fallback_decision fallback_stamp
      (lanes (intersectionState request)) = Ok dec /\
    make_decision adapter str_of_exn now stamp draw fallback_stamp request
    = Returned {| decision := dec;
                  fallbackMode := true;
                  errorMessage := Some message |}.
Proof.
  intros Hmode Hex.
  set (snapshot := lanes (intersectionState request)) in *.
  destruct (fallback_returns fallback_stamp snapshot) as (dec & Hfb & _).
  destruct (enrich_fails adapter snapshot Hex) as (e & He).
  pose proof (enrich_keeps_rest adapter snapshot) as Hsame.
  exists dec. eexists. split; [exact Hfb|].
  unfold make_decision. rewrite Hmode.
  cbn [String.eqb Ascii.eqb Bool.eqb negb]. fold snapshot.
  destruct snapshot as [|item r] eqn:Hs; [inversion Hex|].
  destruct (enrich_lanes adapter (item :: r)) as [enriched loop].
  simpl in He, Hsame. subst loop. cbn [bind].
  rewrite <- (fallback_same fallback_stamp _ _ Hsame), Hfb. reflexivity.
Qed.

Lemma make_decision_falls_back_on_adapter_error_witness :
  exists dec message,
    make_decision adapter_fails_east exn_text 1000 1001 2 1002
      (request_of "ai" snapshot_mixed)
    = Returned {| decision := dec;
                  fallbackMode := true;
                  errorMessage := Some message |} /\
    selectedLane dec = North.
Proof.
  destruct (make_decision_falls_back_on_adapter_error adapter_fails_east
              exn_text 1000 1001 2 1002 (request_of "ai" snapshot_mixed))
    as (dec & message & Hfb & Hrun).
  - reflexivity.
  - simpl. do 2 apply Exists_cons_tl. apply Exists_cons_hd.
    exists ValidationError. reflexivity.
  - exists dec, message. split; [exact Hrun|].
    destruct (fallback_first 1002 snapshot_mixed)
      as (pre & d & lane & post & (Heq & Hpre & Hp) & Hrun').
    + apply Exists_cons_hd. unfold has_motor_vehicles. simpl. lia.
    + change (lanes (intersectionState (request_of "ai" snapshot_mixed)))
        with snapshot_mixed in Hfb.
      rewrite Hrun' in Hfb. inversion Hfb; subst dec. simpl.
      destruct pre as [|p0 pre].
      * inversion Heq; reflexivity.
      * inversion Heq; subst. inversion Hpre as [|? ? Hno _]; subst.
        exfalso. apply Hno. unfold has_motor_vehicles. simpl. lia.
Defined.

(** ** The maps adapter: rounding and the simulated record *)

Lemma Int_part_bounds (y : R) :
  IZR (Int_part y) <= y < IZR (Int_part y) + 1.
Proof.
  destruct (base_Int_part y) as (H1 & H2). lra.
Qed.

Lemma frac_part_eq (y : R) : frac_part y = y - IZR (Int_part y).
Proof. reflexivity. Qed.

Lemma round_half_even_between (y : R) (a b : Z) :
  IZR a <= y <= IZR b -> (a <= round_half_even y <= b)%Z.
Proof.
  intros (Ha & Hb).
  destruct (Int_part_bounds y) as (Hn1 & Hn2).
  assert (Han : (a <= Int_part y)%Z).
  { apply Z.lt_succ_r. apply lt_IZR. rewrite succ_IZR. lra. }
  assert (Hnb : (Int_part y <= b)%Z) by (apply le_IZR; lra).
  unfold round_half_even. rewrite frac_part_eq.
  destruct (Rlt_dec (y - IZR (Int_part y)) (1 / 2)) as [Hlt|Hge]; [lia|].
  assert (Hn : (Int_part y < b)%Z) by (apply lt_IZR; lra).
  destruct (Rgt_dec (y - IZR (Int_part y)) (1 / 2)); [lia|].
  destruct (Z.even (Int_part y)); lia.
Qed.

Lemma round_half_even_near (y : R) :
  - (1 / 2) <= IZR (round_half_even y) - y <= 1 / 2.
Proof.
  destruct (Int_part_bounds y) as (Hn1 & Hn2).
  unfold round_half_even. rewrite frac_part_eq.
  destruct (Rlt_dec (y - IZR (Int_part y)) (1 / 2)) as [Hlt|Hge].
  - lra.
  - destruct (Rgt_dec (y - IZR (Int_part y)) (1 / 2)) as [Hgt|Hle].
    + rewrite plus_IZR. lra.
    + destruct (Z.even (Int_part y)); [|rewrite plus_IZR]; lra.
Qed.

Lemma py_round_speed_range (x : R) :
  5 <= x <= 100 -> 5 <= py_round x 1 <= 100.
Proof.
  intros Hx. unfold py_round.
  destruct (round_half_even_between (x * 10 ^ 1) 50 1000) as (Hlo & Hhi).
  { simpl. lra. }
  apply IZR_le in Hlo, Hhi. simpl in *. lra.
Qed.

Lemma py_round_unit_range (x : R) :
  0 <= x <= 1 -> 0 <= py_round x 2 <= 1.
Proof.
  intros Hx. unfold py_round.
  destruct (round_half_even_between (x * 10 ^ 2) 0 100) as (Hlo & Hhi).
  { simpl. lra. }
  apply IZR_le in Hlo, Hhi. simpl in *. lra.
Qed.

Lemma py_round_one_digit_near (x : R) :
  - 0.05 <= py_round x 1 - x <= 0.05.
Proof.
  unfold py_round. pose proof (round_half_even_near (x * 10 ^ 1)) as H.
  simpl in *. lra.
Qed.

Lemma clamp_speed_range (x : R) : 5 <= Rmax 5 (Rmin 100 x) <= 100.
Proof.
  split; [apply Rmax_l|]. apply Rmax_lub; [lra|apply Rmin_l].
Qed.

Lemma clamp_unit_range (x : R) : 0 <= Rmax 0 (Rmin 1 x) <= 1.
Proof.
  split; [apply Rmax_l|]. apply Rmax_lub; [lra|apply Rmin_l].
Qed.

Lemma new_DownstreamData_ok (speed congestion : R) (ttl : Z) :
  0 <= speed <= 100 -> 0 <= congestion <= 1 ->
  new_DownstreamData speed congestion ttl
  = Ok {| DownstreamData.avgSpeed := speed;
          DownstreamData.congestionIndex := congestion;
          DownstreamData.ttl := ttl |}.
Proof.
  intros Hs Hc. unfold new_DownstreamData. settle_cmp. reflexivity.
Qed.

Lemma simulate_returns (self : MapsAdapter.t) (lane : LaneDirection)
    (weather : option string) (env : MapsAdapter.Env) :
  exists data,
    fst (MapsAdapter._simulate_downstream_traffic self lane weather env)
    = Ok data /\
    snd (MapsAdapter._simulate_downstream_traffic self lane weather env)
    = snd (MapsAdapter._check_accidents self lane env) /\
    5 <= DownstreamData.avgSpeed data <= 100 /\
    0 <= DownstreamData.congestionIndex data <= 1 /\
    DownstreamData.ttl data = 60%Z.
Proof.
  unfold MapsAdapter._simulate_downstream_traffic.
  destruct (MapsAdapter._check_accidents self lane env) as [af self'].
  cbn [fst snd].
  set (raw := MapsAdapter.road_type_speeds lane * _ * _ * _ * af).
  pose proof (clamp_speed_range raw) as Hs.
  set (final := Rmax 5 (Rmin 100 raw)) in *.
  pose proof (clamp_unit_range
                (1 - final / (MapsAdapter.road_type_speeds lane * 1.2))) as Hc.
  pose proof (py_round_speed_range final Hs) as Hrs.
  pose proof (py_round_unit_range _ Hc) as Hrc.
  rewrite new_DownstreamData_ok by lra.
  eexists. split; [reflexivity|]. split; [reflexivity|].
  simpl. repeat split; lra.
Qed.

(** X20.  Whatever the state, the lane, the weather text, the clock and the
    random draws, the simulation returns a record, never an exception: its
    speed lies in [5, 100], its congestion index in [0, 1], its ttl is 60,
    so the field constraints of [DownstreamData] always hold. *)
Theorem simulated_traffic_is_valid (self : MapsAdapter.t)
    (lane : LaneDirection) (weather : option string)
    (env : MapsAdapter.Env) :
  exists data,
    fst (MapsAdapter._simulate_downstream_traffic self lane weather env)
    = Ok data /\
    5 <= DownstreamData.avgSpeed data <= 100 /\
    0 <= DownstreamData.congestionIndex data <= 1 /\
    DownstreamData.ttl data = 60%Z /\
    valid_DownstreamData data.
Proof.
  destruct (simulate_returns self lane weather env)
    as (data & Hrun & _ & Hs & Hc & Httl).
  exists data. split; [exact Hrun|].
  split; [exact Hs|]. split; [exact Hc|]. split; [exact Httl|].
  unfold valid_DownstreamData. lra.
Qed.

(** ** The maps adapter: cache and accidents *)

Lemma sget_sset_same {V : Type} (k : string) (v : V)
    (d : MapsAdapter.sdict V) :
  MapsAdapter.sget k (MapsAdapter.sset k v d) = Some v.
Proof.
  induction d as [|[k' v'] r IH]; simpl.
  - now rewrite String.eqb_refl.
  - destruct (String.eqb k k') eqn:Hk; simpl.
    + now rewrite String.eqb_refl.
    + rewrite Hk. exact IH.
Qed.

Lemma sget_sset_other {V : Type} (k k' : string) (v : V)
    (d : MapsAdapter.sdict V) :
  k <> k' ->
  MapsAdapter.sget k (MapsAdapter.sset k' v d) = MapsAdapter.sget k d.
Proof.
  intros Hne. apply String.eqb_neq in Hne.
  induction d as [|[k0 v0] r IH]; simpl.
  - now rewrite Hne.
  - destruct (String.eqb k' k0) eqn:Hk; simpl.
    + apply String.eqb_eq in Hk. subst k0. now rewrite Hne.
    + destruct (String.eqb k k0); [reflexivity|exact IH].
Qed.

Lemma sget_none_not_in {V : Type} (k : string) (d : MapsAdapter.sdict V) :
  ~ In k (map fst d) -> MapsAdapter.sget k d = None.
Proof.
  induction d as [|[k' v'] r IH]; simpl; intros Hnot; [reflexivity|].
  destruct (String.eqb k k') eqn:Hk.
  - apply String.eqb_eq in Hk. exfalso. apply Hnot. left. now symmetry.
  - apply IH. intros Hin. apply Hnot. right. exact Hin.
Qed.

Lemma sget_sdel_same {V : Type} (k : string) (d : MapsAdapter.sdict V) :
  NoDup (map fst d) ->
  MapsAdapter.sget k (MapsAdapter.sdel k d) = None.
Proof.
  induction d as [|[k' v'] r IH]; simpl; intros Hnd; [reflexivity|].
  inversion Hnd as [|? ? Hnotin Hnd']; subst.
  destruct (String.eqb k k') eqn:Hk.
  - apply String.eqb_eq in Hk. subst k'. apply sget_none_not_in. exact Hnotin.
  - simpl. rewrite Hk. apply IH. exact Hnd'.
Qed.

Lemma sset_keys_in {V : Type} (k k0 : string) (v : V)
    (d : MapsAdapter.sdict V) :
  In k0 (map fst (MapsAdapter.sset k v d)) -> k0 = k \/ In k0 (map fst d).
Proof.
  induction d as [|[k' v'] r IH]; simpl.
  - intros [H|[]]. left. now symmetry.
  - destruct (String.eqb k k') eqn:Hk; simpl.
    + apply String.eqb_eq in Hk. subst k'. intros [H|H]; auto.
    + intros [H|H]; [auto|]. destruct (IH H); auto.
Qed.

Lemma sset_nodup {V : Type} (k : string) (v : V) (d : MapsAdapter.sdict V) :
  NoDup (map fst d) -> NoDup (map fst (MapsAdapter.sset k v d)).
Proof.
  induction d as [|[k' v'] r IH]; simpl; intros Hnd.
  - constructor; [intros []|constructor].
  - inversion Hnd as [|? ? Hnotin Hnd']; subst.
    destruct (String.eqb k k') eqn:Hk; simpl.
    + apply String.eqb_eq in Hk. subst k'. constructor; assumption.
    + constructor; [|apply IH; exact Hnd'].
      intros Hin. destruct (sset_keys_in _ _ _ _ Hin) as [Heq|Hin'].
      * subst k'. now rewrite String.eqb_refl in Hk.
      * exact (Hnotin Hin').
Qed.

Lemma sset_forall {V : Type} (P : string * V -> Prop) (k : string) (v : V)
    (d : MapsAdapter.sdict V) :
  P (k, v) -> Forall P d -> Forall P (MapsAdapter.sset k v d).
Proof.
  intros Hv. induction 1 as [|[k' v'] r Hx Hr IH]; simpl.
  - constructor; [exact Hv|constructor].
  - destruct (String.eqb k k'); constructor; assumption.
Qed.

Lemma sget_forall {V : Type} (P : string * V -> Prop) (k : string) (v : V)
    (d : MapsAdapter.sdict V) :
  Forall P d -> MapsAdapter.sget k d = Some v -> P (k, v).
Proof.
  induction 1 as [|[k' v'] r Hx Hr IH]; simpl; [discriminate|].
  destruct (String.eqb k k') eqn:Hk.
  - apply String.eqb_eq in Hk. subst k'. intros H. inversion H; subst.
    exact Hx.
  - exact IH.
Qed.

Lemma check_accidents_keeps_cache (self : MapsAdapter.t)
    (lane : LaneDirection) (env : MapsAdapter.Env) :
  MapsAdapter.cache (snd (MapsAdapter._check_accidents self lane env))
  = MapsAdapter.cache self /\
  MapsAdapter.simulation_mode
    (snd (MapsAdapter._check_accidents self lane env))
  = MapsAdapter.simulation_mode self.
Proof.
  unfold MapsAdapter._check_accidents.
  destruct (MapsAdapter.sget _ _) as [end_time|].
  - destruct (Rlt_dec _ _); split; reflexivity.
  - destruct (Rlt_dec _ _); split; reflexivity.
Qed.

(** A call that misses the cache: the record comes from the simulation and
    is stored under the call's key with the clock read at that moment. *)
Lemma compute_and_store (self : MapsAdapter.t) (lane : LaneDirection)
    (weather : option string) (env : MapsAdapter.Env) :
  exists data self1,
    (let (r, self') :=
       if MapsAdapter.simulation_mode self
       then MapsAdapter._simulate_downstream_traffic self lane weather env
       else MapsAdapter._fetch_real_traffic_data self lane env in
     match r with
     | Ok data =>
         (Ok data,
          {| MapsAdapter.simulation_mode := MapsAdapter.simulation_mode self';
             MapsAdapter.cache :=
               MapsAdapter.sset (MapsAdapter.cache_key lane weather)
                 (data, MapsAdapter.store_clock env) (MapsAdapter.cache self');
             MapsAdapter.active_accidents :=
               MapsAdapter.active_accidents self' |})
     | Raise e => (Raise e, self')
     end) = (Ok data, self1) /\
    5 <= DownstreamData.avgSpeed data <= 100 /\
    0 <= DownstreamData.congestionIndex data <= 1 /\
    MapsAdapter.cache self1
    = MapsAdapter.sset (MapsAdapter.cache_key lane weather)
        (data, MapsAdapter.store_clock env) (MapsAdapter.cache self) /\
    MapsAdapter.active_accidents self1
    = MapsAdapter.active_accidents
        (snd (MapsAdapter._check_accidents self lane env)).
Proof.
  pose proof (check_accidents_keeps_cache self lane env) as (Hcache & _).
  destruct (MapsAdapter.simulation_mode self).
  - destruct (simulate_returns self lane weather env)
      as (data & Hrun & Hst & Hs & Hc & _).
    destruct (MapsAdapter._simulate_downstream_traffic self lane weather env)
      as [r self'].
    simpl in Hrun, Hst. subst r self'.
    eexists. eexists. split; [reflexivity|]. simpl.
    rewrite Hcache. repeat split; try lra; reflexivity.
  - unfold MapsAdapter._fetch_real_traffic_data.
    destruct (simulate_returns self lane None env)
      as (data & Hrun & Hst & Hs & Hc & _).
    destruct (MapsAdapter._simulate_downstream_traffic self lane None env)
      as [r self'].
    simpl in Hrun, Hst. subst r self'.
    eexists. eexists. split; [reflexivity|]. simpl.
    rewrite Hcache. repeat split; try lra; reflexivity.
Qed.

Lemma get_returns (self : MapsAdapter.t) (lane : LaneDirection)
    (weather : option string) (env : MapsAdapter.Env) :
  cache_valid self ->
  exists data self1,
    MapsAdapter.get_downstream_traffic self lane weather env
    = (Ok data, self1) /\
    valid_DownstreamData data /\
    cache_valid self1 /\
    exists stored,
      MapsAdapter.sget (MapsAdapter.cache_key lane weather)
        (MapsAdapter.cache self1) = Some (data, stored) /\
      (MapsAdapter.sget (MapsAdapter.cache_key lane weather)
         (MapsAdapter.cache self) = None ->
       stored = MapsAdapter.store_clock env).
Proof.
  intros Hvalid. unfold MapsAdapter.get_downstream_traffic.
  destruct (MapsAdapter.sget (MapsAdapter.cache_key lane weather)
              (MapsAdapter.cache self)) as [[cached cached_time]|] eqn:Hget.
  - destruct (Rlt_dec (MapsAdapter.check_clock env - cached_time)
                (IZR MapsAdapter.cache_ttl)).
    + exists cached, self. split; [reflexivity|].
      split; [exact (sget_forall _ _ _ _ Hvalid Hget)|].
      split; [exact Hvalid|]. exists cached_time. split; [exact Hget|].
      discriminate.
    + destruct (compute_and_store self lane weather env)
        as (data & self1 & Hrun & Hs & Hc & Hcache & _).
      rewrite Hrun. exists data, self1. split; [reflexivity|].
      assert (Hd : valid_DownstreamData data)
        by (unfold valid_DownstreamData; lra).
      split; [exact Hd|]. split.
      * unfold cache_valid. rewrite Hcache. apply sset_forall; assumption.
      * exists (MapsAdapter.store_clock env). rewrite Hcache.
        split; [apply sget_sset_same|reflexivity].
  - destruct (compute_and_store self lane weather env)
      as (data & self1 & Hrun & Hs & Hc & Hcache & _).
    rewrite Hrun. exists data, self1. split; [reflexivity|].
    assert (Hd : valid_DownstreamData data)
      by (unfold valid_DownstreamData; lra).
    split; [exact Hd|]. split.
    + unfold cache_valid. rewrite Hcache. apply sset_forall; assumption.
    + exists (MapsAdapter.store_clock env). rewrite Hcache.
      split; [apply sget_sset_same|reflexivity].
Qed.

(** X21.  From a state whose cached records satisfy the field constraints
    (the initial state, and every state reached from it), a call of
    [get_downstream_traffic] always returns a record that satisfies them,
    and it leaves the cache in such a state again. *)
Theorem adapter_answers_with_valid_data (self : MapsAdapter.t)
    (lane : LaneDirection) (weather : option string)
    (env : MapsAdapter.Env) :
  cache_valid self ->
  exists data self1,
    MapsAdapter.get_downstream_traffic self lane weather env
    = (Ok data, self1) /\
    valid_DownstreamData data /\
    cache_valid self1.
Proof.
  intros Hvalid.
  destruct (get_returns self lane weather env Hvalid)
    as (data & self1 & Hrun & Hd & Hv & _).
  exists data, self1. split; [exact Hrun|]. split; [exact Hd|exact Hv].
Qed.

Lemma adapter_answers_with_valid_data_witness :
  exists data self1,
    MapsAdapter.get_downstream_traffic (MapsAdapter.init true) North
      (Some "Clear Sky"%string) env_rush_hour = (Ok data, self1) /\
    valid_DownstreamData data.
Proof.
  destruct (adapter_answers_with_valid_data (MapsAdapter.init true) North
              (Some "Clear Sky"%string) env_rush_hour)
    as (data & self1 & Hrun & Hd & _).
  - constructor.
  - exists data, self1. split; assumption.
Defined.

(** X22.  After a successful call, the record it returned is in the cache
    under the call's key; a later call for the same lane and weather made
    less than 60 seconds after the record was stored returns that record
    again and changes nothing, whatever the calendar and the random draws
    are by then. *)
Theorem cached_answer_is_reused (self self1 : MapsAdapter.t)
    (lane : LaneDirection) (weather : option string)
    (env1 : MapsAdapter.Env) (data : DownstreamData.t) :
  cache_valid self ->
  MapsAdapter.get_downstream_traffic self lane weather env1
  = (Ok data, self1) ->
  exists stored,
    MapsAdapter.sget (MapsAdapter.cache_key lane weather)
      (MapsAdapter.cache self1) = Some (data, stored) /\
    (MapsAdapter.sget (MapsAdapter.cache_key lane weather)
       (MapsAdapter.cache self) = None ->
     stored = MapsAdapter.store_clock env1) /\
    forall env2,
      MapsAdapter.check_clock env2 - stored < 60 ->
      MapsAdapter.get_downstream_traffic self1 lane weather env2
      = (Ok data, self1).
Proof.
  intros Hvalid Hrun.
  destruct (get_returns self lane weather env1 Hvalid)
    as (data' & self1' & Hrun' & _ & _ & stored & Hget & Hfresh).
  rewrite Hrun in Hrun'. inversion Hrun'; subst data' self1'.
  exists stored. split; [exact Hget|]. split; [exact Hfresh|].
  intros env2 Hsoon. unfold MapsAdapter.get_downstream_traffic.
  rewrite Hget. unfold MapsAdapter.cache_ttl.
  destruct (Rlt_dec (MapsAdapter.check_clock env2 - stored) 60); [|lra].
  reflexivity.
Qed.

Lemma cached_answer_is_reused_witness :
  exists data self1,
    MapsAdapter.get_downstream_traffic (MapsAdapter.init true) North
      (Some "Clear Sky"%string) env_rush_hour = (Ok data, self1) /\
    MapsAdapter.get_downstream_traffic self1 North
      (Some "Clear Sky"%string) env_rush_hour_later = (Ok data, self1).
Proof.
  assert (Hinit : cache_valid (MapsAdapter.init true)) by constructor.
  destruct (get_returns (MapsAdapter.init true) North
              (Some "Clear Sky"%string) env_rush_hour Hinit)
    as (data & self1 & Hrun & _).
  exists data, self1. split; [exact Hrun|].
  destruct (cached_answer_is_reused (MapsAdapter.init true) self1 North
              (Some "Clear Sky"%string) env_rush_hour data Hinit Hrun)
    as (stored & _ & Hfresh & Hreuse).
  apply Hreuse. rewrite (Hfresh eq_refl). simpl. lra.
Defined.

(** ** The maps adapter: the factors of the simulation *)

Lemma uniform_range (a b u : R) :
  a <= b -> 0 <= u <= 1 -> a <= uniform a b u <= b.
Proof.
  intros Hab Hu. unfold uniform. split; nra.
Qed.

Lemma time_of_day_factor_range (h d : Z) (u : R) :
  0 <= u <= 1 -> 0.3 <= MapsAdapter._get_time_of_day_factor h d u <= 1.2.
Proof.
  intros Hu. unfold MapsAdapter._get_time_of_day_factor.
  repeat match goal with
    | |- context [if ?b then _ else _] => destruct b
    end;
    match goal with
    | |- _ <= uniform ?a ?b u <= _ =>
        pose proof (uniform_range a b u ltac:(lra) Hu); lra
    end.
Qed.

(** X23.  For a draw in [0, 1] the time-of-day factor lies in [0.3, 1.2];
    on a weekday rush hour (7 to 9 and 17 to 19) it is at most 0.6, and on a
    weekend it is at least 0.8. *)
Theorem time_of_day_factor_bands (h d : Z) (u : R) :
  0 <= u <= 1 ->
  0.3 <= MapsAdapter._get_time_of_day_factor h d u <= 1.2 /\
  ((d < 5)%Z -> (7 <= h <= 9)%Z \/ (17 <= h <= 19)%Z ->
   MapsAdapter._get_time_of_day_factor h d u <= 0.6) /\
  ((5 <= d)%Z -> 0.8 <= MapsAdapter._get_time_of_day_factor h d u).
Proof.
  intros Hu. split; [exact (time_of_day_factor_range h d u Hu)|].
  unfold MapsAdapter._get_time_of_day_factor. split.
  - intros Hd Hh.
    destruct (5 <=? d)%Z eqn:Hw; [apply Z.leb_le in Hw; lia|].
    destruct ((7 <=? h) && (h <=? 9))%Z eqn:Hm.
    + pose proof (uniform_range 0.4 0.6 u ltac:(lra) Hu). lra.
    + destruct ((17 <=? h) && (h <=? 19))%Z eqn:He.
      * pose proof (uniform_range 0.3 0.5 u ltac:(lra) Hu). lra.
      * exfalso. apply andb_false_iff in Hm, He.
        rewrite !Z.leb_gt in Hm, He. lia.
  - intros Hd. apply Z.leb_le in Hd. rewrite Hd.
    destruct ((10 <=? h) && (h <=? 20))%Z.
    + pose proof (uniform_range 0.8 0.95 u ltac:(lra) Hu). lra.
    + pose proof (uniform_range 0.95 1.1 u ltac:(lra) Hu). lra.
Qed.

Lemma time_of_day_factor_bands_witness :
  MapsAdapter._get_time_of_day_factor 8 2 (1 / 2) <= 0.6 /\
  0.8 <= MapsAdapter._get_time_of_day_factor 8 6 (1 / 2).
Proof.
  split.
  - destruct (time_of_day_factor_bands 8 2 (1 / 2)) as (_ & H & _); [lra|].
    apply H; lia.
  - destruct (time_of_day_factor_bands 8 6 (1 / 2)) as (_ & _ & H); [lra|].
    apply H; lia.
Defined.

Lemma weather_factor_range (weather : option string) (u : R) :
  0 <= u <= 1 -> 0.4 <= MapsAdapter._get_weather_factor weather u <= 1.
Proof.
  intros Hu. unfold MapsAdapter._get_weather_factor.
  destruct weather as [[|c w]|]; try lra.
  repeat match goal with
    | |- context [if ?b then _ else _] => destruct b
    end;
    try lra;
    match goal with
    | |- _ <= uniform ?a ?b u <= _ =>
        pose proof (uniform_range a b u ltac:(lra) Hu); lra
    end.
Qed.

(** X24.  For a draw in [0, 1] the weather factor lies in [0.4, 1]; it is
    exactly 1 without a condition or with an empty one; and a condition
    whose lower-cased text mentions "storm" or "heavy rain" gets the storm
    band [0.5, 0.7] whatever else it mentions. *)
Theorem weather_factor_bands (weather : option string) (u : R) :
  0 <= u <= 1 ->
  0.4 <= MapsAdapter._get_weather_factor weather u <= 1 /\
  (weather = None \/ weather = Some EmptyString ->
   MapsAdapter._get_weather_factor weather u = 1) /\
  (forall w,
     weather = Some w ->
     contains "storm" (lower w) = true
     \/ contains "heavy rain" (lower w) = true ->
     0.5 <= MapsAdapter._get_weather_factor weather u <= 0.7).
Proof.
  intros Hu. split; [exact (weather_factor_range weather u Hu)|]. split.
  - intros [->| ->]; simpl; lra.
  - intros w -> Hstorm. unfold MapsAdapter._get_weather_factor.
    destruct w as [|c w].
    + destruct Hstorm as [H|H]; discriminate H.
    + assert (Hb : contains "storm" (lower (String c w))
                   || contains "heavy rain" (lower (String c w)) = true).
      { apply orb_true_iff. exact Hstorm. }
      rewrite Hb. apply uniform_range; [lra|exact Hu].
Qed.

Lemma weather_factor_bands_witness :
  MapsAdapter._get_weather_factor (Some "Clear Sky"%string) (1 / 2) <= 1 /\
  MapsAdapter._get_weather_factor None (1 / 2) = 1 /\
  MapsAdapter._get_weather_factor
    (Some "Heavy Rain and SNOW"%string) (1 / 2) <= 0.7.
Proof.
  assert (Hu : 0 <= 1 / 2 <= 1) by lra.
  split; [|split].
  - destruct (weather_factor_bands (Some "Clear Sky"%string) (1 / 2) Hu)
      as (H & _). lra.
  - destruct (weather_factor_bands None (1 / 2) Hu) as (_ & H & _).
    apply H. left. reflexivity.
  - destruct (weather_factor_bands
                (Some "Heavy Rain and SNOW"%string) (1 / 2) Hu)
      as (_ & _ & H).
    destruct (H _ eq_refl) as (_ & Hhi); [right; reflexivity|exact Hhi].
Defined.

(** ** The maps adapter: accidents *)

Lemma downstream_roads_injective (l1 l2 : LaneDirection) :
  l1 <> l2 -> MapsAdapter.downstream_roads l1 <> MapsAdapter.downstream_roads l2.
Proof.
  destruct l1, l2; intros Hne; try congruence; discriminate.
Qed.

Lemma active_accident_factor (self : MapsAdapter.t) (lane : LaneDirection)
    (env : MapsAdapter.Env) (end_time : R) :
  MapsAdapter.sget (MapsAdapter.downstream_roads lane)
    (MapsAdapter.active_accidents self) = Some end_time ->
  MapsAdapter.accident_clock env < end_time ->
  MapsAdapter._check_accidents self lane env
  = (uniform 0.2 0.4 (MapsAdapter.u_accident env), self).
Proof.
  intros Hget Hlt. unfold MapsAdapter._check_accidents. rewrite Hget.
  destruct (Rlt_dec (MapsAdapter.accident_clock env) end_time); [|lra].
  reflexivity.
Qed.

(** X25.  After [trigger_accident] the cache is empty.  While the accident
    lasts, [_check_accidents] for that lane returns a factor drawn from
    [0.2, 0.4] and keeps the accident; at the first check at or after its
    end it returns 1.0 and removes the accident from the registry. *)
Theorem triggered_accident_lifecycle (self : MapsAdapter.t) (clock : R)
    (lane : LaneDirection) (minutes : Z) (env : MapsAdapter.Env) :
  accidents_wf self ->
  0 <= MapsAdapter.u_accident env <= 1 ->
  let self1 := MapsAdapter.trigger_accident self clock lane minutes in
  MapsAdapter.cache self1 = [] /\
  (MapsAdapter.accident_clock env < clock + IZR (minutes * 60) ->
   exists factor,
     MapsAdapter._check_accidents self1 lane env = (factor, self1) /\
     0.2 <= factor <= 0.4) /\
  (clock + IZR (minutes * 60) <= MapsAdapter.accident_clock env ->
   exists self2,
     MapsAdapter._check_accidents self1 lane env = (1.0, self2) /\
     MapsAdapter.sget (MapsAdapter.downstream_roads lane)
       (MapsAdapter.active_accidents self2) = None).
Proof.
  intros Hwf Hu self1.
  assert (Hget : MapsAdapter.sget (MapsAdapter.downstream_roads lane)
                   (MapsAdapter.active_accidents self1)
                 = Some (clock + IZR (minutes * 60))).
  { unfold self1, MapsAdapter.trigger_accident. simpl. apply sget_sset_same. }
  split; [reflexivity|]. split.
  - intros Hlt. eexists.
    split; [exact (active_accident_factor self1 lane env _ Hget Hlt)|].
    apply uniform_range; [lra|exact Hu].
  - intros Hge. unfold MapsAdapter._check_accidents. rewrite Hget.
    destruct (Rlt_dec (MapsAdapter.accident_clock env)
                (clock + IZR (minutes * 60))); [lra|].
    eexists. split; [reflexivity|]. simpl.
    apply sget_sdel_same. apply sset_nodup. exact Hwf.
Qed.

Lemma triggered_accident_lifecycle_witness :
  let self1 := MapsAdapter.trigger_accident (MapsAdapter.init true) 900 North 30
  in
  (exists factor,
     MapsAdapter._check_accidents self1 North env_rush_hour = (factor, self1)
     /\ 0.2 <= factor <= 0.4).
Proof.
  destruct (triggered_accident_lifecycle (MapsAdapter.init true) 900 North 30
              env_rush_hour)
    as (_ & H & _).
  - constructor.
  - simpl. lra.
  - apply H. simpl. lra.
Defined.

(** X26.  An accident triggered on one lane's road does not change the
    accident factor of any other lane. *)
Theorem accident_affects_one_road (self : MapsAdapter.t) (clock : R)
    (lane other : LaneDirection) (minutes : Z) (env : MapsAdapter.Env) :
  lane <> other ->
  fst (MapsAdapter._check_accidents
         (MapsAdapter.trigger_accident self clock lane minutes) other env)
  = fst (MapsAdapter._check_accidents self other env).
Proof.
  intros Hne. unfold MapsAdapter._check_accidents, MapsAdapter.trigger_accident.
  cbn [MapsAdapter.active_accidents].
  rewrite sget_sset_other
    by (apply downstream_roads_injective; congruence).
  destruct (MapsAdapter.sget (MapsAdapter.downstream_roads other)
              (MapsAdapter.active_accidents self)) as [end_time|].
  - destruct (Rlt_dec _ _); reflexivity.
  - destruct (Rlt_dec _ _); reflexivity.
Qed.

Lemma accident_affects_one_road_witness :
  fst (MapsAdapter._check_accidents
         (MapsAdapter.trigger_accident (MapsAdapter.init true) 900 North 30)
         South env_rush_hour)
  = 1.0.
Proof.
  rewrite (accident_affects_one_road (MapsAdapter.init true) 900 North South
             30 env_rush_hour) by discriminate.
  unfold MapsAdapter._check_accidents. simpl.
  unfold MapsAdapter.accident_probability.
  destruct (Rlt_dec (1 / 2) (0.02 / 60)); [lra|reflexivity].
Defined.

Lemma road_type_speeds_range (lane : LaneDirection) :
  35 <= MapsAdapter.road_type_speeds lane <= 70.
Proof. destruct lane; simpl; lra. Qed.

(** X27.  A call of [get_downstream_traffic] for a lane right after
    [trigger_accident] on it, made while the accident lasts and with draws in
    [0, 1], computes a fresh record whose speed is at most 0.552 times the
    road's base speed (1.2 * 1.15 * 0.4), up to the rounding to one
    decimal. *)
Theorem accident_slows_reported_speed (self : MapsAdapter.t) (clock : R)
    (lane : LaneDirection) (minutes : Z) (weather : option string)
    (env : MapsAdapter.Env) :
  draws_in_unit env ->
  MapsAdapter.accident_clock env < clock + IZR (minutes * 60) ->
  exists data self2,
    MapsAdapter.get_downstream_traffic
      (MapsAdapter.trigger_accident self clock lane minutes) lane weather env
    = (Ok data, self2) /\
    5 <= DownstreamData.avgSpeed data
    <= 0.552 * MapsAdapter.road_type_speeds lane + 0.05.
Proof.
  intros (Hut & Huw & Huv & _ & Hua) Hlt.
  set (self1 := MapsAdapter.trigger_accident self clock lane minutes).
  assert (Hget : MapsAdapter.sget (MapsAdapter.downstream_roads lane)
                   (MapsAdapter.active_accidents self1)
                 = Some (clock + IZR (minutes * 60))).
  { unfold self1, MapsAdapter.trigger_accident. simpl. apply sget_sset_same. }
  pose proof (active_accident_factor self1 lane env _ Hget Hlt) as Hacc.
  pose proof (uniform_range 0.2 0.4 _ ltac:(lra) Hua) as Haf.
  pose proof (uniform_range 0.85 1.15 _ ltac:(lra) Huv) as Hrf.
  pose proof (road_type_speeds_range lane) as Hbase.
  assert (Hsim : forall w,
            exists data,
              MapsAdapter._simulate_downstream_traffic self1 lane w env
              = (Ok data, self1) /\
              5 <= DownstreamData.avgSpeed data
              <= 0.552 * MapsAdapter.road_type_speeds lane + 0.05).
  { intros w.
    pose proof (time_of_day_factor_range (MapsAdapter.hour env)
                  (MapsAdapter.day_of_week env) _ Hut) as Htf.
    pose proof (weather_factor_range w _ Huw) as Hwf.
    unfold MapsAdapter._simulate_downstream_traffic. rewrite Hacc.
    set (base := MapsAdapter.road_type_speeds lane) in *.
    set (tf := MapsAdapter._get_time_of_day_factor _ _ _) in *.
    set (wf := MapsAdapter._get_weather_factor _ _) in *.
    set (rf := uniform 0.85 1.15 _) in *.
    set (af := uniform 0.2 0.4 _) in *.
    assert (H1 : 0 <= base * tf <= base * 1.2) by nra.
    assert (H2 : 0 <= base * tf * wf <= base * 1.2) by nra.
    assert (H3 : 0 <= base * tf * wf * rf <= base * 1.2 * 1.15) by nra.
    assert (H4 : base * tf * wf * rf * af <= base * 1.2 * 1.15 * 0.4) by nra.
    set (raw := base * tf * wf * rf * af) in *.
    pose proof (clamp_speed_range raw) as Hs.
    assert (Hfinal : Rmax 5 (Rmin 100 raw) <= 0.552 * base).
    { apply Rmax_lub; [lra|].
      eapply Rle_trans; [apply Rmin_r|]. lra. }
    set (final := Rmax 5 (Rmin 100 raw)) in *.
    pose proof (clamp_unit_range (1 - final / (base * 1.2))) as Hc.
    pose proof (py_round_speed_range final Hs) as Hrs.
    pose proof (py_round_unit_range _ Hc) as Hrc.
    pose proof (py_round_one_digit_near final) as Hnear.
    rewrite new_DownstreamData_ok by lra.
    eexists. split; [reflexivity|]. simpl. lra. }
  unfold MapsAdapter.get_downstream_traffic.
  replace (MapsAdapter.cache self1) with (@nil (string * (DownstreamData.t * R)))
    by reflexivity.
  cbn [MapsAdapter.sget].
  destruct (MapsAdapter.simulation_mode self1).
  - destruct (Hsim weather) as (data & Hrun & Hb). rewrite Hrun.
    eexists. eexists. split; [reflexivity|exact Hb].
  - unfold MapsAdapter._fetch_real_traffic_data.
    destruct (Hsim None) as (data & Hrun & Hb). rewrite Hrun.
    eexists. eexists. split; [reflexivity|exact Hb].
Qed.

Lemma accident_slows_reported_speed_witness :
  exists data self2,
    MapsAdapter.get_downstream_traffic
      (MapsAdapter.trigger_accident (MapsAdapter.init true) 900 South 30)
      South (Some "Clear Sky"%string) env_rush_hour
    = (Ok data, self2) /\
    DownstreamData.avgSpeed data <= 38.69.
Proof.
  destruct (accident_slows_reported_speed (MapsAdapter.init true) 900 South 30
              (Some "Clear Sky"%string) env_rush_hour)
    as (data & self2 & Hrun & Hb).
  - unfold draws_in_unit. simpl. lra.
  - simpl. lra.
  - exists data, self2. split; [exact Hrun|]. simpl in Hb. lra.
Defined.

(** ** The maps adapter: the traffic summary *)

Lemma sset_fresh {V : Type} (k : string) (v : V) (d : MapsAdapter.sdict V) :
  ~ In k (map fst d) -> MapsAdapter.sset k v d = d ++ [(k, v)].
Proof.
  induction d as [|[k' v'] r IH]; simpl; intros Hnot; [reflexivity|].
  destruct (String.eqb k k') eqn:Hk.
  - apply String.eqb_eq in Hk. exfalso. apply Hnot. left. now symmetry.
  - rewrite IH; [reflexivity|]. intros Hin. apply Hnot. right. exact Hin.
Qed.

Lemma level_classified (c : R) :
  let level :=
    if Rlt_dec c 0.3 then "Light"%string
    else if Rlt_dec c 0.6 then "Moderate"%string
    else if Rlt_dec c 0.8 then "Heavy"%string
    else "Gridlock"%string in
  (level = "Light"%string <-> c < 0.3) /\
  (level = "Moderate"%string <-> 0.3 <= c < 0.6) /\
  (level = "Heavy"%string <-> 0.6 <= c < 0.8) /\
  (level = "Gridlock"%string <-> 0.8 <= c).
Proof.
  cbv zeta.
  destruct (Rlt_dec c 0.3); [|destruct (Rlt_dec c 0.6);
    [|destruct (Rlt_dec c 0.8)]];
    repeat split; intros; try congruence; try lra.
Qed.

Lemma summary_loop_returns (envs : LaneDirection -> MapsAdapter.Env)
    (todo : list LaneDirection) :
  forall (self : MapsAdapter.t)
         (summary : MapsAdapter.sdict MapsAdapter.SummaryEntry),
    cache_valid self ->
    Forall summary_entry_ok summary ->
    NoDup (map fst summary ++ map lane_value todo) ->
    exists summary' self',
      MapsAdapter.summary_loop self envs todo summary = (Ok summary', self') /\
      map fst summary' = map fst summary ++ map lane_value todo /\
      Forall summary_entry_ok summary' /\
      cache_valid self'.
Proof.
  induction todo as [|lane rest IH]; intros self summary Hvalid Hok Hnd.
  - exists summary, self. simpl. rewrite app_nil_r. auto.
  - cbn [MapsAdapter.summary_loop].
    destruct (get_returns self lane None (envs lane) Hvalid)
      as (data & self1 & Hrun & (Hs & Hc) & Hvalid1 & _).
    rewrite Hrun.
    simpl in Hnd. destruct (nodup_app_cons_fresh _ _ _ Hnd) as (Hfresh & Hnd').
    set (entry := {| MapsAdapter.speed := DownstreamData.avgSpeed data;
                     MapsAdapter.congestion :=
                       DownstreamData.congestionIndex data;
                     MapsAdapter.level := _;
                     MapsAdapter.has_accident := _ |}).
    assert (Hentry : summary_entry_ok (lane_value lane, entry)).
    { unfold summary_entry_ok, entry. simpl.
      split; [exact Hs|]. split; [exact Hc|].
      exact (level_classified (DownstreamData.congestionIndex data)). }
    destruct (IH self1 (MapsAdapter.sset (lane_value lane) entry summary))
      as (summary' & self' & Hloop & Hkeys & Hok' & Hvalid').
    + exact Hvalid1.
    + apply sset_forall; assumption.
    + rewrite (sset_fresh _ _ _ Hfresh), map_app. exact Hnd'.
    + exists summary', self'. split; [exact Hloop|].
      split; [|split; assumption].
      rewrite Hkeys, (sset_fresh _ _ _ Hfresh), map_app, <- app_assoc.
      reflexivity.
Qed.

(** X28.  From a state with a valid cache, [get_traffic_summary] returns a
    summary with one entry per lane, keyed "North", "South", "East", "West"
    in that order; every entry has a speed in [0, 100], a congestion in
    [0, 1], and the level that the thresholds 0.3, 0.6 and 0.8 assign to its
    congestion. *)
Theorem traffic_summary_shape (self : MapsAdapter.t)
    (envs : LaneDirection -> MapsAdapter.Env) :
  cache_valid self ->
  exists summary self',
    MapsAdapter.get_traffic_summary self envs = (Ok summary, self') /\
    map fst summary = ["North"; "South"; "East"; "West"]%string /\
    Forall summary_entry_ok summary /\
    cache_valid self'.
Proof.
  intros Hvalid. unfold MapsAdapter.get_traffic_summary.
  destruct (summary_loop_returns envs [North; South; East; West] self []
              Hvalid)
    as (summary & self' & Hrun & Hkeys & Hok & Hvalid').
  - constructor.
  - simpl. repeat constructor; simpl; intuition discriminate.
  - exists summary, self'. repeat split; assumption.
Qed.

Lemma traffic_summary_shape_witness :
  exists summary self',
    MapsAdapter.get_traffic_summary (MapsAdapter.init true)
      (fun _ => env_rush_hour) = (Ok summary, self') /\
    map fst summary = ["North"; "South"; "East"; "West"]%string.
Proof.
  destruct (traffic_summary_shape (MapsAdapter.init true)
              (fun _ => env_rush_hour))
    as (summary & self' & Hrun & Hkeys & _).
  - constructor.
  - exists summary, self'. split; assumption.
Defined.
